(** * Gaya data-quality checks: check functions, baseline store and runner

    Shallow embedding of [gaya/checks/*.py], [gaya/baseline/store.py] and
    [gaya/runner.py].

    Modelling conventions:
    - Python [int] is [Z]; Python [float] values (null and change
      percentages, thresholds) are modelled as exact rationals [Q].
    - A Python [dict] used as a map with order-insensitive equality
      ([schema]) is a [gmap string string]; a dict iterated in insertion
      order ([SchemaConfig.expected]) is an association list.
    - Python [set] is [gset string]; [sorted] on strings is stdpp's
      [merge_sort] for the lexicographic order [String.leb].
    - The number and list formatting of the f-strings ([{n:,}], [{x:.1%}],
      the [repr] of a list of strings) is left abstract: the class [Fmt]
      carries the three formatters, and every check is generic in them.
    - The JSON file of a baseline is modelled by the outcome of reading and
      decoding it ([record]); exceptions are the constructors of [exn]. *)

From Stdlib Require Import ZArith QArith Lqa String Ascii List Sorting.
From stdpp Require Import base gmap sets list strings sorting pretty.

Open Scope Z_scope.

(* ------------------------------------------------------------------ *)
(** ** gaya/checks/base.py *)

Inductive Status := PASS | WARN | FAIL.

Inductive Layer := UPSTREAM | STAGING | DOWNSTREAM.

(** The [Optional[Any]] payloads [expected] / [actual] of a [CheckResult]. *)
Inductive value :=
| VStr (s : string)
| VInt (z : Z)
| VNum (q : Q)
| VStrs (l : list string).

Record ColumnStats := mkColumnStats {
  cs_name : string;
  cs_dtype : string;
  cs_row_count : Z;
  cs_null_count : Z;
  cs_distinct_count : Z
}.

(** [ColumnStats.null_pct] *)
Definition null_pct (c : ColumnStats) : Q :=
  if cs_row_count c =? 0 then 0%Q
  else (inject_Z (cs_null_count c) / inject_Z (cs_row_count c))%Q.

Record TableStats := mkTableStats {
  ts_table_name : string;
  ts_layer : Layer;
  ts_row_count : Z;
  ts_columns : list ColumnStats;
  ts_schema : gmap string string;
  ts_collected_at : string
}.

(** [TableStats.column]: the first column with that name, if any. *)
Definition column (stats : TableStats) (name : string) : option ColumnStats :=
  find (fun c => String.eqb (cs_name c) name) (ts_columns stats).

Definition column_names (stats : TableStats) : list string :=
  map cs_name (ts_columns stats).

Record Baseline := mkBaseline {
  bl_table_name : string;
  bl_row_count : Z;
  bl_schema : gmap string string;
  bl_run_at : string;
  bl_run_count : Z
}.

Record CheckResult := mkCheckResult {
  cr_check : string;
  cr_table : string;
  cr_layer : Layer;
  cr_status : Status;
  cr_message : string;
  cr_column : option string;
  cr_expected : option value;
  cr_actual : option value;
  cr_hint : option string
}.

Record NullConfig := mkNullConfig {
  nc_columns : option (list string);
  nc_warn_pct : Q;
  nc_fail_pct : Q
}.

(** [NullConfig()] *)
Definition default_null_config : NullConfig :=
  mkNullConfig None (1 # 10) (1 # 4).

Record RequiredConfig := mkRequiredConfig { rq_columns : list string }.

Record UniqueConfig := mkUniqueConfig { uq_columns : list string }.

Record RowCountConfig := mkRowCountConfig {
  rc_min_rows : option Z;
  rc_max_rows : option Z
}.

Record VolumeChangeConfig := mkVolumeChangeConfig {
  vc_warn_pct : Q;
  vc_fail_pct : Q
}.

(** [VolumeChangeConfig()] *)
Definition default_volume_config : VolumeChangeConfig :=
  mkVolumeChangeConfig (1 # 5) (2 # 5).

Record SchemaConfig := mkSchemaConfig { sc_expected : list (string * string) }.

Record SchemaDriftConfig := mkSchemaDriftConfig { sd_baseline_columns : list string }.

(* ------------------------------------------------------------------ *)
(** ** gaya/baseline/store.py *)

(** Exceptions that escape [BaselineStore.load]. *)
Inductive exn :=
| UnicodeDecodeError   (* [path.read_text(encoding="utf-8")] on bytes that are not UTF-8 *)
| TypeError.           (* [data["table_name"]] on a JSON value that is not an object *)

(** Error monad: a Python call either returns or raises. *)
Inductive res (A : Type) := Ok (a : A) | Err (e : exn).
Arguments Ok {A} a.
Arguments Err {A} e.

Definition res_bind {A B} (m : res A) (f : A -> res B) : res B :=
  match m with Ok a => f a | Err e => Err e end.

Global Instance res_mbind : MBind res := fun A B f m => res_bind m f.
Global Instance res_mret : MRet res := fun A a => Ok a.

(** The content of a file [.gaya/baselines/{safe}.json], as seen by
    [read_text] and [json.loads]. Field values of an object are taken at the
    types [save] writes them with; a missing key is [None]. *)
Inductive record :=
| RNotUtf8                       (* bytes that do not decode as UTF-8 *)
| RNotJson                       (* text on which json.loads raises JSONDecodeError *)
| RNonObject                     (* valid JSON that is not an object: null, a number, a string, an array *)
| RObject (table_name : option string) (row_count : option Z)
          (schema : option (gmap string string)) (run_at : option string)
          (run_count : option Z).

(** The baseline directory: file stem to file content. *)
Abbreviation store := (gmap string record).

Definition GAYA_VERSION : string := "0.1.0".

(** [str.replace(a, b)] for single characters. *)
Fixpoint replace_char (a b : ascii) (s : string) : string :=
  match s with
  | EmptyString => EmptyString
  | String c s' => String (if Ascii.eqb c a then b else c) (replace_char a b s')
  end.

(** [BaselineStore._path]: the file stem for a table name. *)
Definition safe_name (table_name : string) : string :=
  replace_char "/" "_" (replace_char "." "_" table_name).

(** [BaselineStore.load] *)
Definition load (st : store) (table_name : string) : res (option Baseline) :=
  match st !! safe_name table_name with
  | None => Ok None
  | Some RNotUtf8 => Err UnicodeDecodeError
  | Some RNotJson => Ok None
  | Some RNonObject => Err TypeError
  | Some (RObject tn rc sc ra rcnt) =>
      match tn, rc, sc, ra with
      | Some tn, Some rc, Some sc, Some ra =>
          Ok (Some (mkBaseline tn rc sc ra (default 1 rcnt)))
      | _, _, _, _ => Ok None      (* KeyError *)
      end
  end.

(** [_has_changed] *)
Definition has_changed (baseline : Baseline) (stats : TableStats) : bool :=
  negb (bl_row_count baseline =? ts_row_count stats)
  || negb (bool_decide (bl_schema baseline = ts_schema stats)).

(** The JSON object [save] writes ([gaya_version] is not read back). *)
Definition baseline_record (stats : TableStats) (run_count : Z) : record :=
  RObject (Some (ts_table_name stats)) (Some (ts_row_count stats))
          (Some (ts_schema stats)) (Some (ts_collected_at stats)) (Some run_count).

(** [BaselineStore.save]: whether it wrote, and the directory afterwards. *)
Definition save (st : store) (stats : TableStats) : res (bool * store) :=
  existing ← load st (ts_table_name stats);
  match existing with
  | Some b =>
      if negb (has_changed b stats) then Ok (false, st)
      else Ok (true, <[safe_name (ts_table_name stats) :=
                        baseline_record stats (bl_run_count b + 1)]> st)
  | None =>
      Ok (true, <[safe_name (ts_table_name stats) := baseline_record stats 1]> st)
  end.

(* ------------------------------------------------------------------ *)
(** ** f-string formatting and [sorted] *)

(** The formatters of the f-strings: [f"{n:,}"] for an int,
    [f"{x:.1%}"] for a float, [f"{xs}"] for a list of strings. *)
Class Fmt := {
  fmt_int : Z -> string;
  fmt_pct : Q -> string;
  fmt_strs : list string -> string
}.

(** Python compares [str] by code points; on UTF-8 bytes this is the
    byte-wise lexicographic order [String.leb]. *)
Definition str_le (a b : string) : Prop := String.leb a b = true.

Global Instance str_le_dec : RelDecision str_le :=
  fun a b => decide (String.leb a b = true).

(** [sorted(s)] for a set of strings. *)
Definition sorted (s : gset string) : list string :=
  merge_sort str_le (elements s).

(** [str.lower] on ASCII letters. *)
Definition lower_ascii (c : ascii) : ascii :=
  let n := nat_of_ascii c in
  if (65 <=? n)%nat && (n <=? 90)%nat then ascii_of_nat (n + 32) else c.

Fixpoint lower (s : string) : string :=
  match s with
  | EmptyString => EmptyString
  | String c s' => String (lower_ascii c) (lower s')
  end.

(** The result builders [passed], [warned], [failed] with their keyword
    arguments [column], [expected], [actual], [hint] (default [None]). *)
Definition result (status : Status) (check table : string) (layer : Layer)
    (message : string) (column : option string) (expected actual : option value)
    (hint : option string) : CheckResult :=
  mkCheckResult check table layer status message column expected actual hint.

Definition passed := result PASS.
Definition warned := result WARN.
Definition failed := result FAIL.

Section checks.
Context `{!Fmt}.

(* ------------------------------------------------------------------ *)
(** ** gaya/checks/completeness.py *)

(** [columns_to_check]: [config.columns] is truthy when it is a non-empty
    tuple. *)
Definition columns_to_check (stats : TableStats) (config : NullConfig)
    : list (option ColumnStats) :=
  match nc_columns config with
  | Some (name :: names) => map (column stats) (name :: names)
  | _ => map Some (ts_columns stats)
  end.

(** The body of the loop of [check_null_rate], for one [col]. *)
Definition null_rate_result (stats : TableStats) (config : NullConfig)
    (col : option ColumnStats) : CheckResult :=
  let tn := ts_table_name stats in
  let ly := ts_layer stats in
  match col with
  | None =>
      failed "null_rate" tn ly
        "Column specified in null check does not exist in table."
        (Some "unknown") None None
        (Some "Check your gaya.yml — column name may be misspelled.")
  | Some c =>
      let pct := null_pct c in
      if Qeq_bool pct 0 then
        passed "null_rate" tn ly ("'" +:+ cs_name c +:+ "' has no nulls.")
          (Some (cs_name c)) None (Some (VNum 0)) None
      else if Qle_bool (nc_fail_pct config) pct then
        failed "null_rate" tn ly
          ("'" +:+ cs_name c +:+ "' is " +:+ fmt_pct pct +:+ " null "
           +:+ "— exceeds fail threshold of " +:+ fmt_pct (nc_fail_pct config) +:+ ".")
          (Some (cs_name c)) (Some (VStr ("< " +:+ fmt_pct (nc_fail_pct config))))
          (Some (VStr (fmt_pct pct))) None
      else if Qle_bool (nc_warn_pct config) pct then
        warned "null_rate" tn ly
          ("'" +:+ cs_name c +:+ "' is " +:+ fmt_pct pct +:+ " null "
           +:+ "— above warn threshold of " +:+ fmt_pct (nc_warn_pct config) +:+ ".")
          (Some (cs_name c)) (Some (VStr ("< " +:+ fmt_pct (nc_warn_pct config))))
          (Some (VStr (fmt_pct pct))) None
      else
        passed "null_rate" tn ly
          ("'" +:+ cs_name c +:+ "' null rate " +:+ fmt_pct pct +:+ " is within threshold.")
          (Some (cs_name c)) None (Some (VStr (fmt_pct pct))) None
  end.

(** [check_null_rate] *)
Definition check_null_rate (stats : TableStats) (config : NullConfig) : list CheckResult :=
  map (null_rate_result stats config) (columns_to_check stats config).

(** [check_required_columns] *)
Definition check_required_columns (stats : TableStats) (config : RequiredConfig)
    : list CheckResult :=
  let tn := ts_table_name stats in
  let ly := ts_layer stats in
  map (fun col_name =>
    match column stats col_name with
    | None =>
        failed "required_columns" tn ly
          ("Required column '" +:+ col_name +:+ "' is missing from the table entirely.")
          (Some col_name) None None
          (Some "Verify the column exists in the source and hasn't been renamed.")
    | Some col =>
        if 0 <? cs_null_count col then
          failed "required_columns" tn ly
            ("Required column '" +:+ col_name +:+ "' has " +:+ fmt_int (cs_null_count col)
             +:+ " null(s) " +:+ "(" +:+ fmt_pct (null_pct col) +:+ " of "
             +:+ fmt_int (ts_row_count stats) +:+ " rows).")
            (Some col_name) (Some (VInt 0)) (Some (VInt (cs_null_count col)))
            (Some "This column is marked required — nulls here indicate an upstream issue.")
        else
          passed "required_columns" tn ly
            ("Required column '" +:+ col_name +:+ "' is complete.")
            (Some col_name) None None None
    end) (rq_columns config).

(* ------------------------------------------------------------------ *)
(** ** gaya/checks/uniqueness.py *)

(** [check_unique] *)
Definition check_unique (stats : TableStats) (config : UniqueConfig) : list CheckResult :=
  let tn := ts_table_name stats in
  let ly := ts_layer stats in
  match uq_columns config with
  | [col_name] =>
      match column stats col_name with
      | None =>
          [failed "unique" tn ly
             ("Column '" +:+ col_name +:+ "' specified for uniqueness check does not exist.")
             (Some col_name) None None
             (Some "Check your gaya.yml for a misspelled column name.")]
      | Some col =>
          let duplicates := cs_row_count col - cs_distinct_count col in
          if 0 <? duplicates then
            [failed "unique" tn ly
               ("'" +:+ col_name +:+ "' has " +:+ fmt_int duplicates +:+ " duplicate value(s) "
                +:+ "across " +:+ fmt_int (cs_row_count col) +:+ " rows "
                +:+ "(" +:+ fmt_int (cs_distinct_count col) +:+ " distinct).")
               (Some col_name) (Some (VStr "all distinct"))
               (Some (VStr (fmt_int duplicates +:+ " duplicates")))
               (Some ("Duplicates in a key column usually indicate a pipeline "
                      +:+ "loading the same records more than once."))]
          else
            [passed "unique" tn ly
               ("'" +:+ col_name +:+ "' is fully unique (" +:+ fmt_int (cs_distinct_count col)
                +:+ " distinct values).")
               (Some col_name) None None None]
      end
  | cols =>
      let composite_name := String.concat "|" cols in
      match column stats composite_name with
      | None =>
          [failed "unique" tn ly
             ("Composite key uniqueness check requires columns "
              +:+ fmt_strs cols +:+ " — " +:+ "one or more are missing from the table.")
             (Some composite_name) None None
             (Some "Verify all composite key columns exist in the table.")]
      | Some col =>
          let duplicates := cs_row_count col - cs_distinct_count col in
          if 0 <? duplicates then
            [failed "unique" tn ly
               ("Composite key " +:+ fmt_strs cols +:+ " has " +:+ fmt_int duplicates
                +:+ " " +:+ "duplicate combination(s) across " +:+ fmt_int (cs_row_count col)
                +:+ " rows.")
               (Some composite_name) (Some (VStr "all distinct"))
               (Some (VStr (fmt_int duplicates +:+ " duplicate combinations")))
               (Some ("Composite key duplicates may indicate a missing deduplication "
                      +:+ "step or an unintended cross-join upstream."))]
          else
            [passed "unique" tn ly
               ("Composite key " +:+ fmt_strs cols +:+ " is fully unique "
                +:+ "(" +:+ fmt_int (cs_distinct_count col) +:+ " distinct combinations).")
               (Some composite_name) None None None]
      end
  end.

(* ------------------------------------------------------------------ *)
(** ** gaya/checks/volume.py *)

(** [check_row_count]: the [if] / [elif] / [else] chain. *)
Definition check_row_count (stats : TableStats) (config : RowCountConfig) : list CheckResult :=
  let count := ts_row_count stats in
  let tn := ts_table_name stats in
  let ly := ts_layer stats in
  let within :=
    [passed "row_count" tn ly
       ("Row count " +:+ fmt_int count +:+ " is within expected range.")
       None None (Some (VStr (fmt_int count))) None] in
  let elif_max :=
    match rc_max_rows config with
    | Some mx =>
        if mx <? count then
          [failed "row_count" tn ly
             ("Row count " +:+ fmt_int count +:+ " exceeds maximum " +:+ fmt_int mx +:+ ".")
             None (Some (VStr ("<= " +:+ fmt_int mx))) (Some (VStr (fmt_int count)))
             (Some "This may indicate duplicate rows or an unintended full reload.")]
        else within
    | None => within
    end in
  match rc_min_rows config with
  | Some mn =>
      if count <? mn then
        [failed "row_count" tn ly
           ("Row count " +:+ fmt_int count +:+ " is below minimum " +:+ fmt_int mn +:+ ".")
           None (Some (VStr (">= " +:+ fmt_int mn))) (Some (VStr (fmt_int count)))
           (Some "The table may not have loaded correctly or the source is empty.")]
      else elif_max
  | None => elif_max
  end.

(** [check_volume_change] *)
Definition check_volume_change (stats : TableStats) (config : VolumeChangeConfig)
    (baseline : option Baseline) : list CheckResult :=
  let current := ts_row_count stats in
  let tn := ts_table_name stats in
  let ly := ts_layer stats in
  match baseline with
  | None =>
      [passed "volume_change" tn ly
         ("No baseline found for '" +:+ tn +:+ "'. "
          +:+ "Baseline set at " +:+ fmt_int current +:+ " rows. "
          +:+ "Run again to detect volume changes.")
         None None (Some (VStr (fmt_int current))) None]
  | Some b =>
      let previous := bl_row_count b in
      let delta := current - previous in
      let change_pct := (inject_Z (Z.abs delta) / inject_Z (Z.max previous 1))%Q in
      let direction := if 0 <? delta then "increased" else "dropped" in
      let sign := if 0 <? delta then "+" else "-" in
      if Qle_bool (vc_fail_pct config) change_pct then
        [failed "volume_change" tn ly
           ("Row count " +:+ direction +:+ " " +:+ fmt_pct change_pct +:+ " "
            +:+ "(" +:+ fmt_int previous +:+ " → " +:+ fmt_int current +:+ ", "
            +:+ sign +:+ fmt_int (Z.abs delta) +:+ " rows).")
           None (Some (VStr ("< " +:+ fmt_pct (vc_fail_pct config) +:+ " change")))
           (Some (VStr (fmt_pct change_pct +:+ " " +:+ direction)))
           (Some (if delta <? 0
                  then "A drop this large usually means a failed upstream load "
                       +:+ "or a filter was applied unintentionally."
                  else "A spike this large may indicate duplicate rows or a full reload."))]
      else if Qle_bool (vc_warn_pct config) change_pct then
        [warned "volume_change" tn ly
           ("Row count " +:+ direction +:+ " " +:+ fmt_pct change_pct +:+ " "
            +:+ "(" +:+ fmt_int previous +:+ " → " +:+ fmt_int current +:+ ", "
            +:+ sign +:+ fmt_int (Z.abs delta) +:+ " rows).")
           None (Some (VStr ("< " +:+ fmt_pct (vc_warn_pct config) +:+ " change")))
           (Some (VStr (fmt_pct change_pct +:+ " " +:+ direction))) None]
      else
        [passed "volume_change" tn ly
           ("Row count stable: " +:+ fmt_int previous +:+ " → " +:+ fmt_int current +:+ " "
            +:+ "(" +:+ sign +:+ fmt_int (Z.abs delta) +:+ " rows, "
            +:+ fmt_pct change_pct +:+ " change).")
           None None (Some (VStr (fmt_pct change_pct +:+ " change"))) None]
  end.

(* ------------------------------------------------------------------ *)
(** ** gaya/checks/schema.py *)

(** [check_schema]: [config.expected.items()] in insertion order. *)
Definition check_schema (stats : TableStats) (config : SchemaConfig) : list CheckResult :=
  let tn := ts_table_name stats in
  let ly := ts_layer stats in
  map (fun '(col_name, expected_dtype) =>
    match ts_schema stats !! col_name with
    | None =>
        failed "schema" tn ly
          ("Expected column '" +:+ col_name +:+ "' (" +:+ expected_dtype +:+ ") "
           +:+ "is missing from the table.")
          (Some col_name) (Some (VStr expected_dtype)) None
          (Some "Column may have been dropped or renamed upstream.")
    | Some actual_dtype =>
        if negb (String.eqb (lower actual_dtype) (lower expected_dtype)) then
          failed "schema" tn ly
            ("'" +:+ col_name +:+ "' type mismatch: "
             +:+ "expected '" +:+ expected_dtype +:+ "', found '" +:+ actual_dtype +:+ "'.")
            (Some col_name) (Some (VStr expected_dtype)) (Some (VStr actual_dtype))
            (Some ("A dtype change can silently break downstream queries. "
                   +:+ "Verify this was intentional."))
        else
          passed "schema" tn ly
            ("'" +:+ col_name +:+ "' is '" +:+ actual_dtype +:+ "' as expected.")
            (Some col_name) (Some (VStr expected_dtype)) (Some (VStr actual_dtype)) None
    end) (sc_expected config).

(** The message of the drift FAIL for the set [removed]. *)
Definition removed_message (removed : gset string) : string :=
  fmt_int (Z.of_nat (size removed)) +:+ " column(s) removed since last run: "
  +:+ fmt_strs (sorted removed) +:+ ".".

(** The message of the drift WARN for the set [added]. *)
Definition added_message (added : gset string) : string :=
  fmt_int (Z.of_nat (size added)) +:+ " new column(s) detected since last run: "
  +:+ fmt_strs (sorted added) +:+ ".".

(** [check_schema_drift]; [config] is not read. *)
Definition check_schema_drift (stats : TableStats) (config : SchemaDriftConfig)
    (baseline : option Baseline) : list CheckResult :=
  let tn := ts_table_name stats in
  let ly := ts_layer stats in
  let current_cols : gset string := list_to_set (column_names stats) in
  match baseline with
  | None =>
      [passed "schema_drift" tn ly
         ("No baseline schema found for '" +:+ tn +:+ "'. "
          +:+ "Schema recorded with " +:+ fmt_int (Z.of_nat (size current_cols))
          +:+ " columns. " +:+ "Run again to detect drift.")
         None None (Some (VStrs (sorted current_cols))) None]
  | Some b =>
      let baseline_cols : gset string := dom (bl_schema b) in
      let added := current_cols ∖ baseline_cols in
      let removed := baseline_cols ∖ current_cols in
      if bool_decide (added = ∅) && bool_decide (removed = ∅) then
        [passed "schema_drift" tn ly
           ("Schema unchanged. " +:+ fmt_int (Z.of_nat (size current_cols))
            +:+ " columns match baseline.")
           None None None None]
      else
        (if bool_decide (removed ≠ ∅) then
           [failed "schema_drift" tn ly (removed_message removed) None
              (Some (VStrs (sorted baseline_cols))) (Some (VStrs (sorted current_cols)))
              (Some ("Removed columns break downstream SELECT * queries and "
                     +:+ "any explicit column references. Verify this was intentional."))]
         else [])
        ++
        (if bool_decide (added ≠ ∅) then
           [warned "schema_drift" tn ly (added_message added) None
              (Some (VStrs (sorted baseline_cols))) (Some (VStrs (sorted current_cols)))
              (Some ("New columns are usually safe, but verify they're "
                     +:+ "intentional and documented."))]
         else [])
  end.

End checks.

(* ------------------------------------------------------------------ *)
(** ** gaya/runner.py *)

Record TableConfig := mkTableConfig {
  tc_table : string;
  tc_layer : string;
  tc_source : string;
  tc_null : option NullConfig;
  tc_required : option RequiredConfig;
  tc_unique : option UniqueConfig;
  tc_row_count : option RowCountConfig;
  tc_volume : option VolumeChangeConfig;
  tc_schema : option SchemaConfig;
  tc_drift : option SchemaDriftConfig;
  tc_run_null_check : bool;
  tc_run_volume_check : bool;
  tc_run_drift_check : bool
}.

Record RunResult := mkRunResult {
  rr_table : string;
  rr_layer : string;
  rr_results : list CheckResult;
  rr_baseline_updated : bool;
  rr_error : option string
}.

(** [Layer.value] *)
Definition layer_value (l : Layer) : string :=
  match l with
  | UPSTREAM => "upstream"
  | STAGING => "staging"
  | DOWNSTREAM => "downstream"
  end.

(** A call the runner makes on [self._store]. *)
Inductive store_call :=
| CallLoad (table_name : string)
| CallSave (table_name : string).

(** The runner's world: the baseline directory and the calls made on the
    store so far. *)
Record World := mkWorld {
  w_store : store;
  w_calls : list store_call
}.

(** State and error monad over [World]. *)
Definition M (A : Type) : Type := World -> res (A * World).

Definition m_ret {A} (a : A) : M A := fun w => Ok (a, w).

Definition m_bind {A B} (m : M A) (f : A -> M B) : M B :=
  fun w => match m w with Ok (a, w') => f a w' | Err e => Err e end.

Notation "'let!' x := m 'in' k" := (m_bind m (fun x => k))
  (at level 200, x name, m at level 100, k at level 200).

(** [self._store.load(table_name)] *)
Definition store_load (table_name : string) : M (option Baseline) :=
  fun w =>
    b ← load (w_store w) table_name;
    Ok (b, mkWorld (w_store w) (w_calls w ++ [CallLoad table_name])).

(** [self._store.save(stats)] *)
Definition store_save (stats : TableStats) : M bool :=
  fun w =>
    '(updated, st') ← save (w_store w) stats;
    Ok (updated, mkWorld st' (w_calls w ++ [CallSave (ts_table_name stats)])).

Section runner.
Context `{!Fmt}.

(** [Runner.run]. The default drift configuration lists the baseline's
    schema keys; [check_schema_drift] does not read it. *)
Definition run (stats : TableStats) (config : TableConfig) : M RunResult :=
  let! baseline := store_load (ts_table_name stats) in
  let results : list CheckResult := [] in
  let results :=
    match tc_schema config with
    | Some sc => results ++ check_schema stats sc
    | None => results
    end in
  let results :=
    if tc_run_drift_check config then
      let drift_config :=
        match tc_drift config with
        | Some d => d
        | None =>
            mkSchemaDriftConfig
              (match baseline with
               | Some b => map fst (map_to_list (bl_schema b))
               | None => []
               end)
        end in
      results ++ check_schema_drift stats drift_config baseline
    else results in
  let results :=
    if tc_run_null_check config then
      results ++ check_null_rate stats (default default_null_config (tc_null config))
    else results in
  let results :=
    match tc_required config with
    | Some rq => results ++ check_required_columns stats rq
    | None => results
    end in
  let results :=
    match tc_unique config with
    | Some uq => results ++ check_unique stats uq
    | None => results
    end in
  let results :=
    match tc_row_count config with
    | Some rc => results ++ check_row_count stats rc
    | None => results
    end in
  let results :=
    if tc_run_volume_check config then
      results ++ check_volume_change stats
                   (default default_volume_config (tc_volume config)) baseline
    else results in
  let! updated := store_save stats in
  m_ret (mkRunResult (ts_table_name stats) (layer_value (ts_layer stats))
           results updated None).

End runner.

(* ------------------------------------------------------------------ *)
(** ** Rest of gaya/baseline/store.py *)

(** [BaselineStore.exists] *)
Definition exists_table (st : store) (table_name : string) : bool :=
  bool_decide (is_Some (st !! safe_name table_name)).

(** [BaselineStore.delete]: whether a file was removed, and the directory
    afterwards. *)
Definition delete_table (st : store) (table_name : string) : bool * store :=
  if bool_decide (is_Some (st !! safe_name table_name))
  then (true, delete (safe_name table_name) st)
  else (false, st).


(* ------------------------------------------------------------------ *)
(** ** Properties of [RunResult] (gaya/runner.py) *)

Definition status_eqb (a b : Status) : bool :=
  match a, b with
  | PASS, PASS | WARN, WARN | FAIL, FAIL => true
  | _, _ => false
  end.

(** [RunResult.passed] *)
Definition rr_passed (rr : RunResult) : list CheckResult :=
  filter (fun r => status_eqb (cr_status r) PASS) (rr_results rr).

(** [RunResult.warnings] *)
Definition rr_warnings (rr : RunResult) : list CheckResult :=
  filter (fun r => status_eqb (cr_status r) WARN) (rr_results rr).

(** [RunResult.failures] *)
Definition rr_failures (rr : RunResult) : list CheckResult :=
  filter (fun r => status_eqb (cr_status r) FAIL) (rr_results rr).

(** [RunResult.has_failures]: [bool(self.failures)]. *)
Definition rr_has_failures (rr : RunResult) : bool :=
  match rr_failures rr with [] => false | _ => true end.

(** [RunResult.has_warnings] *)
Definition rr_has_warnings (rr : RunResult) : bool :=
  match rr_warnings rr with [] => false | _ => true end.


(* ------------------------------------------------------------------ *)
(** ** gaya/output/reporter.py: [RunSummary] *)

Record RunSummary := mkRunSummary {
  rs_results : list RunResult;
  rs_duration_secs : Q
}.

(** [sum(len(...) for r in self.results)] *)
Definition sum_len (f : RunResult -> list CheckResult) (rs : list RunResult) : nat :=
  fold_right (fun r acc => (length (f r) + acc)%nat) 0%nat rs.

Definition total_checks (s : RunSummary) : nat := sum_len rr_results (rs_results s).
Definition total_passed (s : RunSummary) : nat := sum_len rr_passed (rs_results s).
Definition total_warnings (s : RunSummary) : nat := sum_len rr_warnings (rs_results s).
Definition total_failures (s : RunSummary) : nat := sum_len rr_failures (rs_results s).

(** Truthiness of [r.error]: set and not the empty string. *)
Definition error_truthy (rr : RunResult) : bool :=
  match rr_error rr with
  | Some e => negb (String.eqb e "")
  | None => false
  end.

(** [RunSummary.exit_code] *)
Definition exit_code (s : RunSummary) : Z :=
  if existsb error_truthy (rs_results s) then 3
  else if existsb rr_has_failures (rs_results s) then 2
  else if existsb rr_has_warnings (rs_results s) then 1
  else 0.

(** [RunSummary.has_failures] *)
Definition summary_has_failures (s : RunSummary) : bool :=
  (0 <? total_failures s)%nat.

(** [RunSummary.has_warnings] *)
Definition summary_has_warnings (s : RunSummary) : bool :=
  (0 <? total_warnings s)%nat.




(* ------------------------------------------------------------------ *)
(** ** gaya/config/loader.py: [_parse_table] *)

(** One entry of [tables:] in gaya.yml, each key at the type the loader uses
    it with; [None] is a key that is absent. *)
Record TableYaml := mkTableYaml {
  ty_layer : option string;
  ty_source : option string;
  ty_not_null : option (list string);
  ty_primary_key : option string;
  ty_min_rows : option Z;
  ty_max_rows : option Z
}.

(** The [defaults:] section of gaya.yml. *)
Record DefaultsYaml := mkDefaultsYaml {
  dy_volume_warn_pct : option Q;
  dy_volume_fail_pct : option Q;
  dy_null_warn_pct : option Q;
  dy_null_fail_pct : option Q
}.

(** Python truthiness of an optional string, list and int. *)
Definition str_truthy (s : option string) : bool :=
  match s with Some x => negb (String.eqb x "") | None => false end.
Definition int_truthy (z : option Z) : bool :=
  match z with Some x => negb (x =? 0) | None => false end.

(** [_parse_table] *)
Definition parse_table (name : string) (cfg : TableYaml) (defaults : DefaultsYaml)
    : TableConfig :=
  let layer := default "staging" (ty_layer cfg) in
  let source := default "default" (ty_source cfg) in
  let null_config :=
    mkNullConfig None (default 10 (dy_null_warn_pct defaults) / 100)%Q
                      (default 25 (dy_null_fail_pct defaults) / 100)%Q in
  let required_cols := default [] (ty_not_null cfg) in
  let required :=
    match required_cols with [] => None | _ => Some (mkRequiredConfig required_cols) end in
  let unique :=
    match ty_primary_key cfg with
    | Some pk => if str_truthy (Some pk) then Some (mkUniqueConfig [pk]) else None
    | None => None
    end in
  let row_count :=
    if int_truthy (ty_min_rows cfg) || int_truthy (ty_max_rows cfg)
    then Some (mkRowCountConfig (ty_min_rows cfg) (ty_max_rows cfg))
    else None in
  let volume :=
    mkVolumeChangeConfig (default 20 (dy_volume_warn_pct defaults) / 100)%Q
                         (default 40 (dy_volume_fail_pct defaults) / 100)%Q in
  mkTableConfig name layer source (Some null_config) required unique row_count
    (Some volume) None None true true true.

(* ------------------------------------------------------------------ *)
(** ** cli.py: [_run_table] *)

(** The result [_run_table] returns when building the adapter or collecting
    the statistics raised: [RunResult(table=config.table, layer=config.layer,
    error=str(exc))], with no check results. *)
Definition run_table_error (config : TableConfig) (msg : string) : RunResult :=
  mkRunResult (tc_table config) (tc_layer config) [] false (Some msg).

(* ------------------------------------------------------------------ *)
(** ** Reading of the specification *)

(** The stages of [Runner.run] in the order the specification lists them:
    schema, schema drift, null rate, required columns, uniqueness, row-count
    bounds, volume change. *)
Inductive stage := SSchema | SDrift | SNull | SRequired | SUnique | SRowCount | SVolume.

Definition stage_order : list stage :=
  [SSchema; SDrift; SNull; SRequired; SUnique; SRowCount; SVolume].

(** What one stage contributes, given the baseline loaded for the run: nothing
    when the stage is not configured or is disabled. *)
Definition stage_results `{!Fmt} (stats : TableStats) (config : TableConfig)
    (baseline : option Baseline) (s : stage) : list CheckResult :=
  match s with
  | SSchema => match tc_schema config with Some sc => check_schema stats sc | None => [] end
  | SDrift =>
      if tc_run_drift_check config then
        check_schema_drift stats (mkSchemaDriftConfig []) baseline
      else []
  | SNull =>
      if tc_run_null_check config then
        check_null_rate stats (default default_null_config (tc_null config))
      else []
  | SRequired =>
      match tc_required config with Some rq => check_required_columns stats rq | None => [] end
  | SUnique => match tc_unique config with Some uq => check_unique stats uq | None => [] end
  | SRowCount => match tc_row_count config with Some rc => check_row_count stats rc | None => [] end
  | SVolume =>
      if tc_run_volume_check config then
        check_volume_change stats (default default_volume_config (tc_volume config)) baseline
      else []
  end.

(** Concrete formatters for evaluating the checks on sample inputs: integers
    in decimal, fractions as [p/q], lists as Python prints them. *)
Global Instance plain_fmt : Fmt := {
  fmt_int := fun z => pretty z;
  fmt_pct := fun q => pretty (Qnum (Qred q)) +:+ "/" +:+ pretty (Npos (Qden (Qred q)));
  fmt_strs := fun l => "[" +:+ String.concat ", " (map (fun x => "'" +:+ x +:+ "'") l) +:+ "]"
}.

(* ------------------------------------------------------------------ *)
(** ** Sample inputs *)

Definition col (name : string) (rows nulls distinct : Z) : ColumnStats :=
  mkColumnStats name "int" rows nulls distinct.

(** A table [orders] with columns [a], [b], [c]. *)
Definition orders_abc (rows : Z) : TableStats :=
  mkTableStats "orders" STAGING rows
    [col "a" rows 0 rows; col "b" rows 50 10; col "c" rows 300 rows]
    (<["a" := "int"]> (<["b" := "int"]> (<["c" := "int"]> ∅)))
    "2026-02-19T10:00:00+00:00".

(** A baseline of [orders] with columns [a], [d]. *)
Definition orders_ad_baseline : Baseline :=
  mkBaseline "orders" 1000 (<["a" := "int"]> (<["d" := "int"]> ∅))
    "2026-02-18T10:00:00+00:00" 3.

Example drift_abc_vs_ad :
  map cr_status (check_schema_drift (orders_abc 1000) (mkSchemaDriftConfig []) (Some orders_ad_baseline))
  = [FAIL; WARN].
Proof. vm_compute. reflexivity. Qed.

Example drift_abc_vs_ad_messages :
  map cr_message (check_schema_drift (orders_abc 1000) (mkSchemaDriftConfig []) (Some orders_ad_baseline))
  = ["1 column(s) removed since last run: ['d']."; "2 new column(s) detected since last run: ['b', 'c']."].
Proof. vm_compute. reflexivity. Qed.

Example volume_1000_to_500 :
  map cr_message (check_volume_change (orders_abc 500) default_volume_config (Some orders_ad_baseline))
  = ["Row count dropped 1/2 (1000 → 500, -500 rows)."].
Proof. vm_compute. reflexivity. Qed.

Example null_rate_abc :
  map cr_status (check_null_rate (orders_abc 1000) default_null_config) = [PASS; PASS; FAIL].
Proof. vm_compute. reflexivity. Qed.

(* ------------------------------------------------------------------ *)
(** ** Baseline store *)

Lemma load_written (st : store) (stats : TableStats) (run_count : Z) :
  load (<[safe_name (ts_table_name stats) := baseline_record stats run_count]> st)
       (ts_table_name stats)
  = Ok (Some (mkBaseline (ts_table_name stats) (ts_row_count stats) (ts_schema stats)
                         (ts_collected_at stats) run_count)).
Proof. unfold load. by rewrite lookup_insert_eq. Qed.

Lemma save_unfold (st : store) (stats : TableStats) (ob : option Baseline) :
  load st (ts_table_name stats) = Ok ob ->
  save st stats =
    match ob with
    | Some b =>
        if negb (has_changed b stats) then Ok (false, st)
        else Ok (true, <[safe_name (ts_table_name stats) :=
                          baseline_record stats (bl_run_count b + 1)]> st)
    | None => Ok (true, <[safe_name (ts_table_name stats) := baseline_record stats 1]> st)
    end.
Proof. intros Hl. unfold save, mbind, res_mbind, res_bind. by rewrite Hl. Qed.

Lemma has_changed_spec (b : Baseline) (stats : TableStats) :
  has_changed b stats = true <->
  bl_row_count b <> ts_row_count stats \/ bl_schema b <> ts_schema stats.
Proof.
  unfold has_changed. rewrite orb_true_iff, !negb_true_iff, Z.eqb_neq.
  rewrite bool_decide_eq_false. tauto.
Qed.

(** C1: [save] writes exactly when there is no baseline for the table or the
    stored one differs from [stats] in [row_count] or in the schema map; the
    written baseline carries the prior [run_count] + 1, or 1 without a prior
    baseline; [save] returns whether it wrote. The stored state is any
    directory on which [load] returns (a baseline or absence). *)
Theorem save_conditional_write (st : store) (stats : TableStats) (ob : option Baseline) :
  load st (ts_table_name stats) = Ok ob ->
  exists (wrote : bool) (st' : store),
    save st stats = Ok (wrote, st') /\
    (wrote = true <->
       ob = None \/
       exists b, ob = Some b /\
         (bl_row_count b <> ts_row_count stats \/ bl_schema b <> ts_schema stats)) /\
    (wrote = false -> st' = st) /\
    (wrote = true ->
       let run_count := match ob with Some b => bl_run_count b + 1 | None => 1 end in
       st' = <[safe_name (ts_table_name stats) := baseline_record stats run_count]> st /\
       exists b', load st' (ts_table_name stats) = Ok (Some b') /\
         bl_run_count b' = run_count /\
         bl_row_count b' = ts_row_count stats /\
         bl_schema b' = ts_schema stats).
Proof.
  intros Hl. rewrite (save_unfold st stats ob Hl).
  destruct ob as [b|].
  - destruct (has_changed b stats) eqn:Hc; simpl.
    + apply has_changed_spec in Hc.
      eexists true, _. split; [reflexivity|]. split; [|split].
      * split; [intros _; right; eauto | done].
      * discriminate.
      * intros _. split; [reflexivity|]. rewrite load_written. eauto.
    + eexists false, _. split; [reflexivity|]. split; [|split].
      * split; [discriminate|]. intros [?|(b' & [= <-] & Hd)]; [discriminate|].
        apply has_changed_spec in Hd. congruence.
      * done.
      * discriminate.
  - eexists true, _. split; [reflexivity|]. split; [|split].
    + split; [by left | done].
    + discriminate.
    + intros _. split; [reflexivity|]. rewrite load_written. eauto.
Qed.

Lemma save_conditional_write_witness :
  load ∅ (ts_table_name (orders_abc 1000)) = Ok None /\
  exists (wrote : bool) (st' : store),
    save ∅ (orders_abc 1000) = Ok (wrote, st') /\
    (wrote = true <->
       @None Baseline = None \/
       exists b, None = Some b /\
         (bl_row_count b <> ts_row_count (orders_abc 1000) \/
          bl_schema b <> ts_schema (orders_abc 1000))) /\
    (wrote = false -> st' = ∅) /\
    (wrote = true ->
       let run_count := match @None Baseline with Some b => bl_run_count b + 1 | None => 1 end in
       st' = <[safe_name (ts_table_name (orders_abc 1000)) :=
                 baseline_record (orders_abc 1000) run_count]> ∅ /\
       exists b', load st' (ts_table_name (orders_abc 1000)) = Ok (Some b') /\
         bl_run_count b' = run_count /\
         bl_row_count b' = ts_row_count (orders_abc 1000) /\
         bl_schema b' = ts_schema (orders_abc 1000)).
Proof.
  split; [reflexivity|].
  apply (save_conditional_write ∅ (orders_abc 1000) None). reflexivity.
Defined.

(** C8: from a directory with no baseline for the table, two successive
    [save] calls with the same table name, [row_count] and schema write once:
    the first returns [true] and stores [run_count] = 1, the second returns
    [false] and leaves the directory unchanged. *)
Theorem save_twice_writes_once (st : store) (stats stats2 : TableStats) :
  load st (ts_table_name stats) = Ok None ->
  ts_table_name stats2 = ts_table_name stats ->
  ts_row_count stats2 = ts_row_count stats ->
  ts_schema stats2 = ts_schema stats ->
  exists st1 : store,
    save st stats = Ok (true, st1) /\
    (exists b, load st1 (ts_table_name stats) = Ok (Some b) /\ bl_run_count b = 1) /\
    save st1 stats2 = Ok (false, st1).
Proof.
  intros Hl Hn Hr Hs. rewrite (save_unfold st stats None Hl).
  eexists. split; [reflexivity|]. split.
  - rewrite load_written. eauto.
  - assert (Hl2 : load (<[safe_name (ts_table_name stats) := baseline_record stats 1]> st)
                       (ts_table_name stats2)
                  = Ok (Some (mkBaseline (ts_table_name stats) (ts_row_count stats)
                                (ts_schema stats) (ts_collected_at stats) 1))).
    { rewrite Hn. apply load_written. }
    rewrite (save_unfold _ stats2 _ Hl2).
    assert (Hc : has_changed (mkBaseline (ts_table_name stats) (ts_row_count stats)
                                (ts_schema stats) (ts_collected_at stats) 1) stats2 = false).
    { apply not_true_is_false. rewrite has_changed_spec. simpl. rewrite Hr, Hs. tauto. }
    by rewrite Hc.
Qed.

Lemma save_twice_writes_once_witness :
  exists st1 : store,
    save ∅ (orders_abc 1000) = Ok (true, st1) /\
    (exists b, load st1 (ts_table_name (orders_abc 1000)) = Ok (Some b) /\ bl_run_count b = 1) /\
    save st1 (orders_abc 1000) = Ok (false, st1).
Proof.
  apply (save_twice_writes_once ∅ (orders_abc 1000) (orders_abc 1000));
    reflexivity.
Defined.

(** The corrupted records [load] catches: text that is not JSON, and a JSON
    object lacking one of the four required keys. *)
Definition caught_corruption (r : record) : Prop :=
  match r with
  | RNotJson => True
  | RObject tn rc sc ra _ => tn = None \/ rc = None \/ sc = None \/ ra = None
  | _ => False
  end.

Lemma load_caught_corruption (st : store) (table_name : string) (r : record) :
  st !! safe_name table_name = Some r -> caught_corruption r ->
  load st table_name = Ok None.
Proof.
  intros Hr Hc. unfold load. rewrite Hr.
  destruct r as [ | | | tn rc sc ra rcnt]; simpl in Hc; try contradiction; [reflexivity|].
  destruct tn, rc, sc, ra; try reflexivity.
  destruct Hc as [?|[?|[?|?]]]; discriminate.
Qed.

Lemma save_after_caught_corruption (st : store) (stats : TableStats) (r : record) :
  st !! safe_name (ts_table_name stats) = Some r -> caught_corruption r ->
  save st stats
  = Ok (true, <[safe_name (ts_table_name stats) := baseline_record stats 1]> st).
Proof.
  intros Hr Hc. apply (save_unfold st stats None). by eapply load_caught_corruption.
Qed.

(** A baseline file of [orders] that holds the JSON value [null]. *)
Definition orders_null_file : store := {[ "orders" := RNonObject ]}.

(** C7 (failing input): on a baseline file holding valid JSON that is not an
    object ([null], a number, a string, an array), [data["table_name"]]
    raises [TypeError], which [load] does not catch; [save] for the table
    raises with it. *)
Theorem load_raises_on_non_object_json :
  load orders_null_file "orders" = Err TypeError /\
  save orders_null_file (orders_abc 1000) = Err TypeError.
Proof. split; vm_compute; reflexivity. Qed.

(* ------------------------------------------------------------------ *)
(** ** Volume change *)

Lemma Qle_bool_false (x y : Q) : Qle_bool x y = false -> (y < x)%Q.
Proof.
  intros H. apply Qnot_le_lt. intros Hle. apply Qle_bool_iff in Hle. congruence.
Qed.

(** C2: without a baseline, [check_volume_change] returns one PASS. With a
    baseline it returns one result for [delta] = current − previous and
    [change_pct] = |delta| / max(previous, 1): FAIL exactly when
    [change_pct] ≥ [fail_pct], WARN exactly when [warn_pct] ≤ [change_pct] <
    [fail_pct], PASS otherwise; a FAIL or WARN message labels the direction
    "increased" when [delta] > 0 and "dropped" otherwise (the PASS message
    carries no direction word). *)
Theorem volume_change_classification `{!Fmt} (stats : TableStats)
    (config : VolumeChangeConfig) (baseline : option Baseline) :
  match baseline with
  | None =>
      exists r, check_volume_change stats config None = [r] /\ cr_status r = PASS
  | Some b =>
      let previous := bl_row_count b in
      let delta := ts_row_count stats - previous in
      let change_pct := (inject_Z (Z.abs delta) / inject_Z (Z.max previous 1))%Q in
      exists r, check_volume_change stats config (Some b) = [r] /\
        (cr_status r = FAIL <-> (vc_fail_pct config <= change_pct)%Q) /\
        (cr_status r = WARN <->
           (vc_warn_pct config <= change_pct)%Q /\ (change_pct < vc_fail_pct config)%Q) /\
        (cr_status r = PASS <->
           (change_pct < vc_warn_pct config)%Q /\ (change_pct < vc_fail_pct config)%Q) /\
        (0 < delta -> cr_status r <> PASS ->
           exists rest, cr_message r = "Row count increased " +:+ rest) /\
        (delta <= 0 -> cr_status r <> PASS ->
           exists rest, cr_message r = "Row count dropped " +:+ rest)
  end.
Proof.
  destruct baseline as [b|]; [|eexists; split; reflexivity].
  cbv zeta. unfold check_volume_change.
  remember (inject_Z (Z.abs (ts_row_count stats - bl_row_count b)) /
            inject_Z (Z.max (bl_row_count b) 1))%Q as cp eqn:Hcp.
  destruct (Qle_bool (vc_fail_pct config) cp) eqn:Hf;
    [|destruct (Qle_bool (vc_warn_pct config) cp) eqn:Hw];
    (eexists; split; [reflexivity|]); cbn [cr_status failed warned passed result].
  - apply Qle_bool_iff in Hf.
    split; [tauto|]. split; [|split; [|split]].
    + split; [discriminate|]. intros [_ Hq]. exfalso. by apply (Qlt_not_le _ _ Hq).
    + split; [discriminate|]. intros [_ Hq]. exfalso. by apply (Qlt_not_le _ _ Hq).
    + intros Hd _. cbn. destruct (Z.ltb_spec 0 (ts_row_count stats - bl_row_count b)); [|lia].
      eexists. reflexivity.
    + intros Hd _. cbn. destruct (Z.ltb_spec 0 (ts_row_count stats - bl_row_count b)); [lia|].
      eexists. reflexivity.
  - apply Qle_bool_false in Hf. apply Qle_bool_iff in Hw.
    split; [|split; [|split; [|split]]].
    + split; [discriminate|]. intros Hq. exfalso. by apply (Qlt_not_le _ _ Hf).
    + tauto.
    + split; [discriminate|]. intros [Hq _]. exfalso. by apply (Qlt_not_le _ _ Hq).
    + intros Hd _. cbn. destruct (Z.ltb_spec 0 (ts_row_count stats - bl_row_count b)); [|lia].
      eexists. reflexivity.
    + intros Hd _. cbn. destruct (Z.ltb_spec 0 (ts_row_count stats - bl_row_count b)); [lia|].
      eexists. reflexivity.
  - apply Qle_bool_false in Hf. apply Qle_bool_false in Hw.
    split; [|split; [|split; [|split]]].
    + split; [discriminate|]. intros Hq. exfalso. by apply (Qlt_not_le _ _ Hf).
    + split; [discriminate|]. intros [Hq _]. exfalso. by apply (Qlt_not_le _ _ Hw).
    + tauto.
    + intros _ Hq. by destruct Hq.
    + intros _ Hq. by destruct Hq.
Qed.

(* ------------------------------------------------------------------ *)
(** ** Schema drift *)

Global Instance str_le_total : Total str_le.
Proof. intros a b. unfold str_le. apply String.leb_total. Qed.

Lemma sorted_spec (s : gset string) :
  Sorted str_le (sorted s) /\ NoDup (sorted s) /\ (forall x, x ∈ sorted s <-> x ∈ s).
Proof.
  unfold sorted. split; [apply Sorted_merge_sort; apply _|]. split.
  - rewrite merge_sort_Permutation. apply NoDup_elements.
  - intros x. rewrite merge_sort_Permutation. apply elem_of_elements.
Qed.

Lemma diff_empty_both (X Y : gset string) :
  X ∖ Y = ∅ -> Y ∖ X = ∅ -> X = Y.
Proof.
  intros H1 H2. apply leibniz_equiv. intros x.
  assert (x ∉ X ∖ Y) by (rewrite H1; set_solver).
  assert (x ∉ Y ∖ X) by (rewrite H2; set_solver).
  rewrite !elem_of_difference in *.
  destruct (decide (x ∈ X)), (decide (x ∈ Y)); tauto.
Qed.

Lemma diff_empty_eq (X Y : gset string) : X = Y -> X ∖ Y = ∅ /\ Y ∖ X = ∅.
Proof. intros ->. split; set_solver. Qed.

(** C3: without a baseline, [check_schema_drift] returns one PASS. With a
    baseline, for [removed] = baseline columns − current columns and [added] =
    current columns − baseline columns: equal column sets give one PASS;
    otherwise the results are the FAIL part followed by the WARN part, the
    FAIL part being one FAIL whose message lists [removed] sorted (exactly
    when [removed] is non-empty), the WARN part one WARN whose message lists
    [added] sorted (exactly when [added] is non-empty). *)
Theorem schema_drift_results `{!Fmt} (stats : TableStats) (config : SchemaDriftConfig)
    (baseline : option Baseline) :
  match baseline with
  | None =>
      exists r, check_schema_drift stats config None = [r] /\ cr_status r = PASS
  | Some b =>
      let current : gset string := list_to_set (column_names stats) in
      let base : gset string := dom (bl_schema b) in
      let removed := base ∖ current in
      let added := current ∖ base in
      (current = base ->
         exists r, check_schema_drift stats config (Some b) = [r] /\ cr_status r = PASS) /\
      (current <> base ->
         exists fails warns,
           check_schema_drift stats config (Some b) = fails ++ warns /\
           (removed = ∅ -> fails = []) /\
           (removed <> ∅ ->
              exists r l, fails = [r] /\ cr_status r = FAIL /\
                cr_message r = fmt_int (Z.of_nat (size removed))
                               +:+ " column(s) removed since last run: " +:+ fmt_strs l +:+ "." /\
                Sorted str_le l /\ NoDup l /\ (forall x, x ∈ l <-> x ∈ removed)) /\
           (added = ∅ -> warns = []) /\
           (added <> ∅ ->
              exists r l, warns = [r] /\ cr_status r = WARN /\
                cr_message r = fmt_int (Z.of_nat (size added))
                               +:+ " new column(s) detected since last run: " +:+ fmt_strs l +:+ "." /\
                Sorted str_le l /\ NoDup l /\ (forall x, x ∈ l <-> x ∈ added)))
  end.
Proof.
  destruct baseline as [b|]; [|eexists; split; reflexivity].
  cbv zeta. unfold check_schema_drift.
  set (current := list_to_set (column_names stats) : gset string).
  set (base := dom (bl_schema b) : gset string).
  split.
  - intros Heq. destruct (diff_empty_eq _ _ Heq) as [Ha Hr].
    rewrite Ha, Hr. rewrite !bool_decide_eq_true_2 by reflexivity.
    eexists. split; reflexivity.
  - intros Hne.
    assert (Hand : bool_decide (current ∖ base = ∅) && bool_decide (base ∖ current = ∅) = false).
    { apply not_true_is_false. rewrite andb_true_iff, !bool_decide_eq_true.
      intros [Ha Hr]. apply Hne. by apply diff_empty_both. }
    rewrite Hand.
    eexists _, _. split; [reflexivity|].
    split; [|split; [|split]].
    + intros Hr. by rewrite bool_decide_eq_false_2 by (rewrite Hr; auto).
    + intros Hr. rewrite bool_decide_eq_true_2 by exact Hr.
      destruct (sorted_spec (base ∖ current)) as (Hs & Hnd & Hel).
      eexists _, _. split; [reflexivity|]. split; [reflexivity|]. split; [reflexivity|].
      split; [exact Hs|]. split; [exact Hnd|]. exact Hel.
    + intros Ha. by rewrite bool_decide_eq_false_2 by (rewrite Ha; auto).
    + intros Ha. rewrite bool_decide_eq_true_2 by exact Ha.
      destruct (sorted_spec (current ∖ base)) as (Hs & Hnd & Hel).
      eexists _, _. split; [reflexivity|]. split; [reflexivity|]. split; [reflexivity|].
      split; [exact Hs|]. split; [exact Hnd|]. exact Hel.
Qed.

(* ------------------------------------------------------------------ *)
(** ** Null rate *)

Lemma lookup_map {A B} (f : A -> B) (l : list A) (i : nat) :
  map f l !! i = option_map f (l !! i).
Proof. revert i. induction l as [|x l IH]; intros [|i]; simpl; auto. Qed.

(** C4: for thresholds with [fail_pct] > [warn_pct] ≥ 0 and a column [c] that
    resolves (position [i] of the columns checked), the result at [i] is for
    [c] and is PASS when [null_pct c] is 0, FAIL when [null_pct c] ≥
    [fail_pct] (so the fail threshold wins over the warn threshold), WARN when
    [null_pct c] is non-zero with [warn_pct] ≤ [null_pct c] < [fail_pct], PASS
    when [null_pct c] < [warn_pct]; [null_pct] is [null_count / row_count], or
    0 when [row_count] = 0. The zero case takes precedence over the WARN band
    ("regardless of thresholds"), which matters only when [warn_pct] = 0. *)
Theorem null_rate_classification `{!Fmt} (stats : TableStats) (config : NullConfig)
    (i : nat) (c : ColumnStats) :
  (0 <= nc_warn_pct config)%Q ->
  (nc_warn_pct config < nc_fail_pct config)%Q ->
  columns_to_check stats config !! i = Some (Some c) ->
  exists r, check_null_rate stats config !! i = Some r /\
    cr_column r = Some (cs_name c) /\
    (Qeq (null_pct c) 0 -> cr_status r = PASS) /\
    ((nc_fail_pct config <= null_pct c)%Q -> cr_status r = FAIL) /\
    (~ Qeq (null_pct c) 0 ->
       (nc_warn_pct config <= null_pct c)%Q -> (null_pct c < nc_fail_pct config)%Q ->
       cr_status r = WARN) /\
    ((null_pct c < nc_warn_pct config)%Q -> cr_status r = PASS) /\
    (cs_row_count c = 0 -> null_pct c = 0%Q) /\
    (cs_row_count c <> 0 ->
       null_pct c = (inject_Z (cs_null_count c) / inject_Z (cs_row_count c))%Q).
Proof.
  intros Hw Hwf Hi. unfold check_null_rate. rewrite lookup_map, Hi. simpl.
  eexists. split; [reflexivity|].
  assert (Hpct : (cs_row_count c = 0 -> null_pct c = 0%Q) /\
                 (cs_row_count c <> 0 ->
                  null_pct c = (inject_Z (cs_null_count c) / inject_Z (cs_row_count c))%Q)).
  { unfold null_pct. split; intros Hr.
    - by rewrite Hr.
    - apply Z.eqb_neq in Hr. by rewrite Hr. }
  unfold null_rate_result.
  destruct (Qeq_bool (null_pct c) 0) eqn:Hz;
    [|destruct (Qle_bool (nc_fail_pct config) (null_pct c)) eqn:Hf;
      [|destruct (Qle_bool (nc_warn_pct config) (null_pct c)) eqn:Hwb]];
    cbn [cr_status cr_column passed failed warned result];
    (split; [reflexivity|]).
  - apply Qeq_bool_iff in Hz.
    split; [auto|]. split; [intros; lra|]. split; [intros Hn; contradiction|].
    split; [auto | exact Hpct].
  - apply Qle_bool_iff in Hf. apply Qeq_bool_neq in Hz.
    split; [intros; contradiction|]. split; [auto|]. split; [intros; lra|].
    split; [intros; lra | exact Hpct].
  - apply Qle_bool_false in Hf. apply Qle_bool_iff in Hwb. apply Qeq_bool_neq in Hz.
    split; [intros; contradiction|]. split; [intros; lra|]. split; [auto|].
    split; [intros; lra | exact Hpct].
  - apply Qle_bool_false in Hf. apply Qle_bool_false in Hwb. apply Qeq_bool_neq in Hz.
    split; [intros; contradiction|]. split; [intros; lra|]. split; [intros; lra|].
    split; [auto | exact Hpct].
Qed.

Definition col_c : ColumnStats := col "c" 1000 300 1000.

Lemma null_rate_classification_witness :
  exists r, check_null_rate (orders_abc 1000) default_null_config !! 2%nat = Some r /\
    cr_column r = Some (cs_name col_c) /\
    (Qeq (null_pct col_c) 0 -> cr_status r = PASS) /\
    ((nc_fail_pct default_null_config <= null_pct col_c)%Q -> cr_status r = FAIL) /\
    (~ Qeq (null_pct col_c) 0 ->
       (nc_warn_pct default_null_config <= null_pct col_c)%Q ->
       (null_pct col_c < nc_fail_pct default_null_config)%Q ->
       cr_status r = WARN) /\
    ((null_pct col_c < nc_warn_pct default_null_config)%Q -> cr_status r = PASS) /\
    (cs_row_count col_c = 0 -> null_pct col_c = 0%Q) /\
    (cs_row_count col_c <> 0 ->
       null_pct col_c = (inject_Z (cs_null_count col_c) / inject_Z (cs_row_count col_c))%Q).
Proof.
  apply (null_rate_classification (orders_abc 1000) default_null_config 2 col_c).
  - vm_compute. discriminate.
  - reflexivity.
  - reflexivity.
Defined.

(** C9 (failing input): a configured name that does not resolve yields, at
    its position, a FAIL with the message that the column does not exist,
    but its [column] field is the placeholder ["unknown"], not the
    configured name. *)
Theorem null_rate_unresolved_name `{!Fmt} (stats : TableStats) (names : list string)
    (warn fail : Q) (i : nat) (name : string) :
  names !! i = Some name ->
  column stats name = None ->
  length (check_null_rate stats (mkNullConfig (Some names) warn fail)) = length names /\
  exists r, check_null_rate stats (mkNullConfig (Some names) warn fail) !! i = Some r /\
    cr_status r = FAIL /\
    cr_message r = "Column specified in null check does not exist in table." /\
    cr_column r = Some "unknown".
Proof.
  intros Hi Hc. destruct names as [|n0 names]; [discriminate|].
  unfold check_null_rate, columns_to_check. simpl nc_columns. cbv iota.
  split; [by rewrite !length_map|].
  rewrite lookup_map, lookup_map, Hi. simpl. rewrite Hc.
  eexists. split; [reflexivity|]. auto.
Qed.

Lemma null_rate_unresolved_name_witness :
  length (check_null_rate (orders_abc 1000) (mkNullConfig (Some ["email"]) (1 # 10) (1 # 4)))
    = length ["email"] /\
  exists r, check_null_rate (orders_abc 1000) (mkNullConfig (Some ["email"]) (1 # 10) (1 # 4))
              !! 0%nat = Some r /\
    cr_status r = FAIL /\
    cr_message r = "Column specified in null check does not exist in table." /\
    cr_column r = Some "unknown".
Proof.
  apply (null_rate_unresolved_name (orders_abc 1000) ["email"] (1 # 10) (1 # 4) 0 "email");
    reflexivity.
Defined.

(** C10: an explicitly empty column tuple checks every column of the table,
    exactly as [columns = None] does: one result per table column. *)
Theorem null_rate_empty_tuple_checks_all `{!Fmt} (stats : TableStats) (warn fail : Q) :
  check_null_rate stats (mkNullConfig (Some []) warn fail)
    = check_null_rate stats (mkNullConfig None warn fail) /\
  check_null_rate stats (mkNullConfig (Some []) warn fail)
    = map (fun c => null_rate_result stats (mkNullConfig (Some []) warn fail) (Some c))
          (ts_columns stats) /\
  length (check_null_rate stats (mkNullConfig (Some []) warn fail)) = length (ts_columns stats).
Proof.
  unfold check_null_rate, columns_to_check. simpl nc_columns. cbv iota.
  split; [reflexivity|]. split.
  - by rewrite map_map.
  - by rewrite !length_map.
Qed.

(* ------------------------------------------------------------------ *)
(** ** Uniqueness *)

(** C5: with one configured column that resolves, [check_unique] returns one
    result, FAIL exactly when [row_count − distinct_count] > 0 (reporting that
    count), PASS otherwise, never WARN. With two or more configured columns it
    looks up the column named by joining the names with ["|"] in order: FAIL
    when it is absent, otherwise the same duplicate rule on that column. *)
Theorem unique_check_results `{!Fmt} (stats : TableStats) (config : UniqueConfig) :
  (forall (col_name : string) (c : ColumnStats),
     uq_columns config = [col_name] -> column stats col_name = Some c ->
     let duplicates := cs_row_count c - cs_distinct_count c in
     exists r, check_unique stats config = [r] /\ cr_column r = Some col_name /\
       (cr_status r = FAIL <-> 0 < duplicates) /\
       (cr_status r = PASS <-> duplicates <= 0) /\
       cr_status r <> WARN /\
       (0 < duplicates -> cr_actual r = Some (VStr (fmt_int duplicates +:+ " duplicates")))) /\
  (forall cols : list string,
     uq_columns config = cols -> (2 <= length cols)%nat ->
     let composite_name := String.concat "|" cols in
     (column stats composite_name = None ->
        exists r, check_unique stats config = [r] /\ cr_status r = FAIL /\
          cr_column r = Some composite_name) /\
     (forall c : ColumnStats, column stats composite_name = Some c ->
        let duplicates := cs_row_count c - cs_distinct_count c in
        exists r, check_unique stats config = [r] /\ cr_column r = Some composite_name /\
          (cr_status r = FAIL <-> 0 < duplicates) /\
          (cr_status r = PASS <-> duplicates <= 0) /\
          cr_status r <> WARN /\
          (0 < duplicates ->
             cr_actual r = Some (VStr (fmt_int duplicates +:+ " duplicate combinations"))))).
Proof.
  unfold check_unique. split.
  - intros col_name c Hcols Hc. cbv zeta. rewrite Hcols, Hc.
    destruct (Z.ltb_spec 0 (cs_row_count c - cs_distinct_count c)) as [Hd|Hd];
      (eexists; split; [reflexivity|]); cbn [cr_status cr_column cr_actual failed passed result];
      (split; [reflexivity|]).
    + split; [tauto|]. split; [split; [discriminate | lia]|]. split; [discriminate|]. auto.
    + split; [split; [discriminate | lia]|]. split; [tauto|]. split; [discriminate|].
      intros; lia.
  - intros cols Hcols Hlen. cbv zeta. rewrite Hcols.
    destruct cols as [|a [|b rest]]; simpl in Hlen; try lia.
    split.
    + intros Hc. rewrite Hc. eexists. split; [reflexivity|]. auto.
    + intros c Hc. rewrite Hc.
      destruct (Z.ltb_spec 0 (cs_row_count c - cs_distinct_count c)) as [Hd|Hd];
        (eexists; split; [reflexivity|]); cbn [cr_status cr_column cr_actual failed passed result];
        (split; [reflexivity|]).
      * split; [tauto|]. split; [split; [discriminate | lia]|]. split; [discriminate|]. auto.
      * split; [split; [discriminate | lia]|]. split; [tauto|]. split; [discriminate|].
        intros; lia.
Qed.

(* ------------------------------------------------------------------ *)
(** ** Runner *)

Lemma save_ok (st : store) (stats : TableStats) (ob : option Baseline) :
  load st (ts_table_name stats) = Ok ob ->
  exists (updated : bool) (st' : store), save st stats = Ok (updated, st').
Proof.
  intros Hl. rewrite (save_unfold st stats ob Hl).
  destruct ob as [b|]; [destruct (negb (has_changed b stats))|]; eauto.
Qed.

Lemma check_schema_drift_config_unused `{!Fmt} (stats : TableStats)
    (d : SchemaDriftConfig) (baseline : option Baseline) :
  check_schema_drift stats d baseline = check_schema_drift stats (mkSchemaDriftConfig []) baseline.
Proof. reflexivity. Qed.

(** C6: when the baseline loads, [Runner.run] calls [load] once and then
    [save] once, in that order and whatever the check outcomes; its results
    are the stage outputs in the order schema, schema drift, null rate,
    required columns, uniqueness, row count, volume change, the drift and
    volume stages both receiving the one loaded baseline; [baseline_updated]
    is what [save] returned. *)
Theorem run_stage_order_single_load_save `{!Fmt} (w : World) (stats : TableStats)
    (config : TableConfig) (ob : option Baseline) :
  load (w_store w) (ts_table_name stats) = Ok ob ->
  exists (updated : bool) (st' : store),
    save (w_store w) stats = Ok (updated, st') /\
    run stats config w =
      Ok (mkRunResult (ts_table_name stats) (layer_value (ts_layer stats))
            (flat_map (stage_results stats config ob) stage_order) updated None,
          mkWorld st' (w_calls w ++ [CallLoad (ts_table_name stats);
                                     CallSave (ts_table_name stats)])).
Proof.
  intros Hl. destruct (save_ok _ _ _ Hl) as (updated & st' & Hs).
  exists updated, st'. split; [exact Hs|].
  unfold run, m_bind, store_load. cbn [mbind res_mbind res_bind]. rewrite Hl.
  cbn [w_store w_calls]. unfold store_save. cbn [w_store w_calls mbind res_mbind res_bind].
  rewrite Hs. unfold m_ret. cbn [w_calls].
  rewrite <- app_assoc. simpl (_ ++ _ :: _).
  do 3 f_equal.
  rewrite check_schema_drift_config_unused.
  unfold stage_order, stage_results. simpl flat_map.
  destruct (tc_schema config), (tc_run_drift_check config), (tc_run_null_check config),
    (tc_required config), (tc_unique config), (tc_row_count config),
    (tc_run_volume_check config);
    rewrite ?app_nil_r, <- ?app_assoc; reflexivity.
Qed.

Definition orders_config : TableConfig :=
  mkTableConfig "orders" "staging" "warehouse"
    None (Some (mkRequiredConfig ["a"])) (Some (mkUniqueConfig ["a"]))
    (Some (mkRowCountConfig (Some 500) (Some 2000))) None None None true true true.

Lemma run_stage_order_single_load_save_witness :
  exists (updated : bool) (st' : store),
    save ∅ (orders_abc 1000) = Ok (updated, st') /\
    run (orders_abc 1000) orders_config (mkWorld ∅ []) =
      Ok (mkRunResult "orders" "staging"
            (flat_map (stage_results (orders_abc 1000) orders_config None) stage_order)
            updated None,
          mkWorld st' ([] ++ [CallLoad "orders"; CallSave "orders"])).
Proof.
  apply (run_stage_order_single_load_save (mkWorld ∅ []) (orders_abc 1000) orders_config None).
  reflexivity.
Defined.

(** The specification's uniqueness sample: 1000 rows, 980 distinct. *)
Example unique_1000_980 :
  map (fun r => (cr_status r, cr_actual r))
    (check_unique (mkTableStats "orders" STAGING 1000 [col "id" 1000 0 980] ∅ "t")
                  (mkUniqueConfig ["id"]))
  = [(FAIL, Some (VStr "20 duplicates"))].
Proof. vm_compute. reflexivity. Qed.

(** The specification's sample of two writes: (1000, s) then (1200, s). *)
Example save_1000_then_1200 :
  match save ∅ (orders_abc 1000) with
  | Ok (_, st1) =>
      match save st1 (orders_abc 1200) with
      | Ok (w, st2) => (w, option_map bl_run_count (match load st2 "orders" with Ok b => b | Err _ => None end))
      | Err _ => (false, None)
      end
  | Err _ => (false, None)
  end = (true, Some 2).
Proof. vm_compute. reflexivity. Qed.

(* ------------------------------------------------------------------ *)
(** ** Further properties: baseline store *)

Lemma replace_char_length (a b : ascii) (s : string) :
  String.length (replace_char a b s) = String.length s.
Proof. induction s as [|c s IH]; simpl; auto. Qed.

Lemma replace_char_removes (a b : ascii) (s : string) :
  a <> b -> ~ In a (list_ascii_of_string (replace_char a b s)).
Proof.
  intros Hab. induction s as [|c s IH]; simpl; [tauto|].
  intros [Hc|Hin]; [|contradiction].
  destruct (Ascii.eqb_spec c a); congruence.
Qed.

Lemma replace_char_keeps_absent (a b d : ascii) (s : string) :
  d <> b -> ~ In d (list_ascii_of_string s) ->
  ~ In d (list_ascii_of_string (replace_char a b s)).
Proof.
  intros Hdb. induction s as [|c s IH]; simpl; [tauto|].
  intros Hn [Hc|Hin].
  - destruct (Ascii.eqb_spec c a); [congruence|]. apply Hn. by left.
  - apply IH; [|exact Hin]. intros H. apply Hn. by right.
Qed.

Lemma replace_char_idem (a b : ascii) (s : string) :
  ~ In a (list_ascii_of_string s) -> replace_char a b s = s.
Proof.
  induction s as [|c s IH]; simpl; [reflexivity|].
  intros Hn. destruct (Ascii.eqb_spec c a) as [->|]; [exfalso; apply Hn; by left|].
  rewrite IH; [reflexivity|]. intros H. apply Hn. by right.
Qed.

(** [_path] sanitisation: the file stem of a table name has no ['.'] and no
    ['/'], has the name's length, and sanitising it again changes nothing. *)
Theorem safe_name_sanitised (table_name : string) :
  ~ In "."%char (list_ascii_of_string (safe_name table_name)) /\
  ~ In "/"%char (list_ascii_of_string (safe_name table_name)) /\
  String.length (safe_name table_name) = String.length table_name /\
  safe_name (safe_name table_name) = safe_name table_name.
Proof.
  unfold safe_name.
  assert (Hdot : ~ In "."%char (list_ascii_of_string
                   (replace_char "/" "_" (replace_char "." "_" table_name)))).
  { apply replace_char_keeps_absent; [discriminate|].
    apply replace_char_removes. discriminate. }
  assert (Hsl : ~ In "/"%char (list_ascii_of_string
                   (replace_char "/" "_" (replace_char "." "_" table_name)))).
  { apply replace_char_removes. discriminate. }
  split; [exact Hdot|]. split; [exact Hsl|]. split.
  - by rewrite !replace_char_length.
  - rewrite (replace_char_idem "." "_") by exact Hdot.
    by rewrite (replace_char_idem "/" "_") by exact Hsl.
Qed.

(** [save] only touches the file of its own table: the baseline of every
    table whose sanitised name differs loads as before. *)
Theorem save_frame (st st' : store) (stats : TableStats) (wrote : bool)
    (other : string) :
  save st stats = Ok (wrote, st') ->
  safe_name other <> safe_name (ts_table_name stats) ->
  load st' other = load st other.
Proof.
  intros Hs Hne. unfold save, mbind, res_mbind, res_bind in Hs.
  destruct (load st (ts_table_name stats)) as [[b|]|e]; [| |discriminate].
  - destruct (negb (has_changed b stats)); injection Hs as <- <-; [reflexivity|].
    unfold load. by rewrite lookup_insert_ne by congruence.
  - injection Hs as <- <-. unfold load. by rewrite lookup_insert_ne by congruence.
Qed.

Definition public_orders_stats : TableStats :=
  mkTableStats "public.orders" STAGING 10 [col "id" 10 0 10]
    (<["id" := "int"]> ∅) "2026-02-19T10:00:00+00:00".

Lemma save_frame_witness :
  save (<["public_customers" := baseline_record public_orders_stats 4]> ∅) public_orders_stats
    = Ok (true, <["public_orders" := baseline_record public_orders_stats 1]>
                  (<["public_customers" := baseline_record public_orders_stats 4]> ∅)) /\
  safe_name "public.customers" <> safe_name (ts_table_name public_orders_stats) /\
  load (<["public_orders" := baseline_record public_orders_stats 1]>
          (<["public_customers" := baseline_record public_orders_stats 4]> ∅)) "public.customers"
  = load (<["public_customers" := baseline_record public_orders_stats 4]> ∅) "public.customers".
Proof.
  assert (Hs : save (<["public_customers" := baseline_record public_orders_stats 4]> ∅)
                 public_orders_stats
    = Ok (true, <["public_orders" := baseline_record public_orders_stats 1]>
                  (<["public_customers" := baseline_record public_orders_stats 4]> ∅)))
    by (vm_compute; reflexivity).
  assert (Hn : safe_name "public.customers" <> safe_name (ts_table_name public_orders_stats))
    by (vm_compute; discriminate).
  split; [exact Hs|]. split; [exact Hn|].
  exact (save_frame _ _ public_orders_stats true "public.customers" Hs Hn).
Defined.

(** Two table names with the same sanitised name share one baseline file:
    after [save] writes for one table, [load] of the other returns that
    table's baseline, carrying the first table's name. *)
Theorem save_aliases_sanitised_names (st st' : store) (stats : TableStats)
    (other : string) :
  save st stats = Ok (true, st') ->
  safe_name other = safe_name (ts_table_name stats) ->
  exists b, load st' other = Ok (Some b) /\
    bl_table_name b = ts_table_name stats /\
    bl_row_count b = ts_row_count stats /\
    bl_schema b = ts_schema stats.
Proof.
  intros Hs Heq. unfold save, mbind, res_mbind, res_bind in Hs.
  assert (Hl : forall rc, load (<[safe_name (ts_table_name stats) := baseline_record stats rc]> st) other
                = Ok (Some (mkBaseline (ts_table_name stats) (ts_row_count stats) (ts_schema stats)
                                       (ts_collected_at stats) rc))).
  { intros rc. unfold load. rewrite Heq. by rewrite lookup_insert_eq. }
  destruct (load st (ts_table_name stats)) as [[b|]|e]; [| |discriminate].
  - destruct (negb (has_changed b stats)); [discriminate|].
    injection Hs as <-. rewrite Hl. eauto.
  - injection Hs as <-. rewrite Hl. eauto.
Qed.

Lemma save_aliases_sanitised_names_witness :
  save ∅ public_orders_stats
    = Ok (true, <["public_orders" := baseline_record public_orders_stats 1]> ∅) /\
  safe_name "public_orders" = safe_name (ts_table_name public_orders_stats) /\
  exists b, load (<["public_orders" := baseline_record public_orders_stats 1]> ∅) "public_orders"
              = Ok (Some b) /\
    bl_table_name b = ts_table_name public_orders_stats /\
    bl_row_count b = ts_row_count public_orders_stats /\
    bl_schema b = ts_schema public_orders_stats.
Proof.
  assert (Hs : save ∅ public_orders_stats
    = Ok (true, <["public_orders" := baseline_record public_orders_stats 1]> ∅))
    by (vm_compute; reflexivity).
  assert (Hn : safe_name "public_orders" = safe_name (ts_table_name public_orders_stats))
    by (vm_compute; reflexivity).
  split; [exact Hs|]. split; [exact Hn|].
  exact (save_aliases_sanitised_names _ _ public_orders_stats "public_orders" Hs Hn).
Defined.



(** [delete] returns whether the table had a baseline file; afterwards the
    table loads as absent and no longer exists, and every table with another
    sanitised name is unaffected. *)
Theorem delete_table_spec (st st' : store) (table_name : string) (removed : bool) :
  delete_table st table_name = (removed, st') ->
  removed = exists_table st table_name /\
  load st' table_name = Ok None /\
  exists_table st' table_name = false /\
  (forall other, safe_name other <> safe_name table_name -> load st' other = load st other).
Proof.
  unfold delete_table, exists_table.
  destruct (bool_decide (is_Some (st !! safe_name table_name))) eqn:Hb;
    intros [= <- <-].
  - split; [reflexivity|]. split; [|split].
    + unfold load. by rewrite lookup_delete_eq.
    + apply bool_decide_eq_false. rewrite lookup_delete_eq. by intros [].
    + intros other Hne. unfold load. by rewrite lookup_delete_ne by congruence.
  - apply bool_decide_eq_false in Hb.
    split; [reflexivity|]. split; [|split].
    + unfold load. destruct (st !! safe_name table_name) eqn:E; [|reflexivity].
      exfalso. apply Hb. by eexists.
    + by apply bool_decide_eq_false.
    + reflexivity.
Qed.

Lemma delete_table_spec_witness :
  delete_table (<["orders" := RNotJson]> ∅) "orders" = (true, delete "orders" (<["orders" := RNotJson]> ∅)) /\
  true = exists_table (<["orders" := RNotJson]> ∅) "orders" /\
  load (delete "orders" (<["orders" := RNotJson]> ∅)) "orders" = Ok None /\
  exists_table (delete "orders" (<["orders" := RNotJson]> ∅)) "orders" = false /\
  (forall other, safe_name other <> safe_name "orders" ->
     load (delete "orders" (<["orders" := RNotJson]> ∅)) other
     = load (<["orders" := RNotJson]> ∅) other).
Proof.
  assert (Hd : delete_table (<["orders" := RNotJson]> ∅) "orders"
               = (true, delete "orders" (<["orders" := RNotJson]> ∅)))
    by (vm_compute; reflexivity).
  split; [exact Hd|]. exact (delete_table_spec _ _ "orders" true Hd).
Defined.



(* ------------------------------------------------------------------ *)
(** ** Further properties: checks *)

(** [check_required_columns] gives one result per configured name, in
    order, for that name: FAIL when the column is missing or has a positive
    [null_count], PASS otherwise, never WARN. *)
Theorem required_columns_results `{!Fmt} (stats : TableStats) (config : RequiredConfig)
    (i : nat) (name : string) :
  rq_columns config !! i = Some name ->
  length (check_required_columns stats config) = length (rq_columns config) /\
  exists r, check_required_columns stats config !! i = Some r /\
    cr_column r = Some name /\
    (cr_status r = FAIL <->
       column stats name = None \/
       exists c, column stats name = Some c /\ 0 < cs_null_count c) /\
    (cr_status r = PASS <-> exists c, column stats name = Some c /\ cs_null_count c <= 0) /\
    cr_status r <> WARN.
Proof.
  intros Hi. unfold check_required_columns. split; [by rewrite length_map|].
  rewrite lookup_map, Hi. simpl. eexists. split; [reflexivity|].
  destruct (column stats name) as [c|] eqn:Hc.
  - destruct (Z.ltb_spec 0 (cs_null_count c)) as [Hn|Hn];
      cbn [cr_status cr_column failed passed result]; (split; [reflexivity|]).
    + split; [split; [intros _; right; eauto | reflexivity]|].
      split; [|discriminate]. split; [discriminate|]. intros (c' & [= <-] & ?). lia.
    + split; [split; [discriminate|] |].
      { intros [?|(c' & [= <-] & ?)]; [discriminate | lia]. }
      split; [|discriminate]. split; [intros _; eauto | reflexivity].
  - cbn [cr_status cr_column failed result]. split; [reflexivity|].
    split; [tauto|]. split; [|discriminate]. split; [discriminate|]. intros (? & ? & _). discriminate.
Qed.

Lemma required_columns_results_witness :
  length (check_required_columns (orders_abc 1000) (mkRequiredConfig ["a"; "b"; "zz"]))
    = length (rq_columns (mkRequiredConfig ["a"; "b"; "zz"])) /\
  exists r, check_required_columns (orders_abc 1000) (mkRequiredConfig ["a"; "b"; "zz"]) !! 1%nat
              = Some r /\
    cr_column r = Some "b" /\
    (cr_status r = FAIL <->
       column (orders_abc 1000) "b" = None \/
       exists c, column (orders_abc 1000) "b" = Some c /\ 0 < cs_null_count c) /\
    (cr_status r = PASS <-> exists c, column (orders_abc 1000) "b" = Some c /\ cs_null_count c <= 0) /\
    cr_status r <> WARN.
Proof.
  apply (required_columns_results (orders_abc 1000) (mkRequiredConfig ["a"; "b"; "zz"]) 1 "b").
  reflexivity.
Defined.

(** [check_row_count] always returns one result, never WARN: FAIL exactly when
    a configured minimum exceeds the row count or a configured maximum is below
    it; when the minimum is violated the result reports the minimum (it is
    tested first). *)
Theorem row_count_single_result `{!Fmt} (stats : TableStats) (config : RowCountConfig) :
  exists r, check_row_count stats config = [r] /\
    (cr_status r = FAIL <->
       (exists mn, rc_min_rows config = Some mn /\ ts_row_count stats < mn) \/
       (exists mx, rc_max_rows config = Some mx /\ mx < ts_row_count stats)) /\
    (cr_status r = FAIL \/ cr_status r = PASS) /\
    (forall mn, rc_min_rows config = Some mn -> ts_row_count stats < mn ->
       cr_expected r = Some (VStr (">= " +:+ fmt_int mn))).
Proof.
  unfold check_row_count.
  destruct (rc_min_rows config) as [mn|] eqn:Hmn;
    [destruct (Z.ltb_spec (ts_row_count stats) mn) as [Hlt|Hge]|].
  - eexists. split; [reflexivity|]. cbn [cr_status cr_expected failed result].
    split; [split; [intros _; left; eauto | reflexivity]|].
    split; [by left|]. intros mn' [= <-] _. reflexivity.
  - destruct (rc_max_rows config) as [mx|] eqn:Hmx;
      [destruct (Z.ltb_spec mx (ts_row_count stats))|];
      eexists; (split; [reflexivity|]); cbn [cr_status cr_expected failed passed result].
    + split; [split; [intros _; right; eauto | reflexivity]|].
      split; [by left|]. intros mn' [= <-] ?. lia.
    + split; [split; [discriminate|]|].
      { intros [(mn' & [= <-] & ?)|(mx' & [= <-] & ?)]; lia. }
      split; [by right|]. intros mn' [= <-] ?. lia.
    + split; [split; [discriminate|]|].
      { intros [(mn' & [= <-] & ?)|(mx' & ? & _)]; [lia | discriminate]. }
      split; [by right|]. intros mn' [= <-] ?. lia.
  - destruct (rc_max_rows config) as [mx|] eqn:Hmx;
      [destruct (Z.ltb_spec mx (ts_row_count stats))|];
      eexists; (split; [reflexivity|]); cbn [cr_status cr_expected failed passed result].
    + split; [split; [intros _; right; eauto | reflexivity]|].
      split; [by left|]. intros mn' [=].
    + split; [split; [discriminate|]|].
      { intros [(mn' & ? & _)|(mx' & [= <-] & ?)]; [discriminate | lia]. }
      split; [by right|]. intros mn' [=].
    + split; [split; [discriminate|]|].
      { intros [(mn' & ? & _)|(mx' & ? & _)]; discriminate. }
      split; [by right|]. intros mn' [=].
Qed.




(** [check_schema_drift] compares column names only: two baselines with the
    same column names give the same results, whatever their types (and
    whatever the drift configuration). *)
Theorem schema_drift_ignores_types `{!Fmt} (stats : TableStats)
    (config config' : SchemaDriftConfig) (b b' : Baseline) :
  dom (bl_schema b) = dom (bl_schema b') ->
  check_schema_drift stats config (Some b) = check_schema_drift stats config' (Some b').
Proof. intros Hd. unfold check_schema_drift. by rewrite Hd. Qed.

Definition orders_ad_retyped : Baseline :=
  mkBaseline "orders" 1000 (<["a" := "string"]> (<["d" := "date"]> ∅))
    "2026-02-18T10:00:00+00:00" 3.

Lemma schema_drift_ignores_types_witness :
  dom (bl_schema orders_ad_baseline) = dom (bl_schema orders_ad_retyped) /\
  check_schema_drift (orders_abc 1000) (mkSchemaDriftConfig []) (Some orders_ad_baseline)
  = check_schema_drift (orders_abc 1000) (mkSchemaDriftConfig ["x"]) (Some orders_ad_retyped).
Proof.
  assert (Hd : dom (bl_schema orders_ad_baseline) = dom (bl_schema orders_ad_retyped)).
  { unfold orders_ad_baseline, orders_ad_retyped. simpl. by rewrite !dom_insert_L. }
  split; [exact Hd|]. exact (schema_drift_ignores_types _ _ _ _ _ Hd).
Defined.

(** With the baseline's row count unchanged, the volume check passes exactly
    when both thresholds are positive: a zero [fail_pct] makes an unchanged
    table FAIL, a zero [warn_pct] (with positive [fail_pct]) makes it WARN. *)
Theorem volume_unchanged_rows `{!Fmt} (stats : TableStats) (config : VolumeChangeConfig)
    (b : Baseline) :
  bl_row_count b = ts_row_count stats ->
  exists r, check_volume_change stats config (Some b) = [r] /\
    (cr_status r = PASS <-> (0 < vc_warn_pct config)%Q /\ (0 < vc_fail_pct config)%Q) /\
    (cr_status r = FAIL <-> (vc_fail_pct config <= 0)%Q).
Proof.
  intros He. unfold check_volume_change.
  rewrite He, Z.sub_diag.
  assert (Hz : (inject_Z (Z.abs 0) / inject_Z (Z.max (ts_row_count stats) 1) == 0)%Q).
  { unfold Qdiv. apply Qmult_0_l. }
  remember (inject_Z (Z.abs 0) / inject_Z (Z.max (ts_row_count stats) 1))%Q as cp.
  destruct (Qle_bool (vc_fail_pct config) cp) eqn:Hf;
    [|destruct (Qle_bool (vc_warn_pct config) cp) eqn:Hw];
    (eexists; split; [reflexivity|]); cbn [cr_status failed warned passed result].
  - apply Qle_bool_iff in Hf. split; [split; [discriminate | intros; lra]|].
    split; [intros _; lra | reflexivity].
  - apply Qle_bool_false in Hf. apply Qle_bool_iff in Hw.
    split; [split; [discriminate | intros; lra]|].
    split; [discriminate | intros; lra].
  - apply Qle_bool_false in Hf. apply Qle_bool_false in Hw.
    split; [split; [intros _; lra | reflexivity]|].
    split; [discriminate | intros; lra].
Qed.

Lemma volume_unchanged_rows_witness :
  exists r, check_volume_change (orders_abc 1000) (mkVolumeChangeConfig 0 0) (Some orders_ad_baseline)
              = [r] /\
    (cr_status r = PASS <-> (0 < vc_warn_pct (mkVolumeChangeConfig 0 0))%Q /\
                            (0 < vc_fail_pct (mkVolumeChangeConfig 0 0))%Q) /\
    (cr_status r = FAIL <-> (vc_fail_pct (mkVolumeChangeConfig 0 0) <= 0)%Q).
Proof. apply volume_unchanged_rows. reflexivity. Defined.

(** When the baseline's row count is 0 (or negative), the divisor is clamped
    to 1: the change percentage is the absolute row difference itself, so the
    volume check FAILs exactly when [fail_pct] ≤ |current − previous|. *)
Theorem volume_from_empty_baseline `{!Fmt} (stats : TableStats) (config : VolumeChangeConfig)
    (b : Baseline) :
  bl_row_count b <= 0 ->
  exists r, check_volume_change stats config (Some b) = [r] /\
    (cr_status r = FAIL <->
       (vc_fail_pct config <= inject_Z (Z.abs (ts_row_count stats - bl_row_count b)))%Q).
Proof.
  intros Hp. unfold check_volume_change.
  rewrite (Z.max_r (bl_row_count b) 1) by lia.
  assert (Hq : (inject_Z (Z.abs (ts_row_count stats - bl_row_count b)) / inject_Z 1
                == inject_Z (Z.abs (ts_row_count stats - bl_row_count b)))%Q).
  { unfold Qdiv. rewrite Qmult_comm. apply Qmult_1_l. }
  remember (inject_Z (Z.abs (ts_row_count stats - bl_row_count b)) / inject_Z 1)%Q as cp.
  remember (inject_Z (Z.abs (ts_row_count stats - bl_row_count b))) as d.
  destruct (Qle_bool (vc_fail_pct config) cp) eqn:Hf;
    [|destruct (Qle_bool (vc_warn_pct config) cp) eqn:Hw];
    (eexists; split; [reflexivity|]); cbn [cr_status failed warned passed result].
  - apply Qle_bool_iff in Hf. split; [intros _; lra | reflexivity].
  - apply Qle_bool_false in Hf. split; [discriminate | intros; lra].
  - apply Qle_bool_false in Hf. split; [discriminate | intros; lra].
Qed.

Lemma volume_from_empty_baseline_witness :
  exists r, check_volume_change (orders_abc 1) default_volume_config
              (Some (mkBaseline "orders" 0 ∅ "t" 1)) = [r] /\
    (cr_status r = FAIL <->
       (vc_fail_pct default_volume_config
          <= inject_Z (Z.abs (ts_row_count (orders_abc 1) - bl_row_count (mkBaseline "orders" 0 ∅ "t" 1))))%Q).
Proof. apply volume_from_empty_baseline. simpl. lia. Defined.

(** With no configured columns, [check_unique] takes the composite branch
    and looks up the column named [""]: absent such a column, it returns one
    FAIL for column [""]. *)
Theorem unique_no_columns `{!Fmt} (stats : TableStats) (config : UniqueConfig) :
  uq_columns config = [] -> column stats "" = None ->
  exists r, check_unique stats config = [r] /\ cr_status r = FAIL /\ cr_column r = Some "".
Proof.
  intros Hc Hn. unfold check_unique. rewrite Hc. simpl. rewrite Hn.
  eexists. split; [reflexivity|]. auto.
Qed.

Lemma unique_no_columns_witness :
  exists r, check_unique (orders_abc 1000) (mkUniqueConfig []) = [r] /\
    cr_status r = FAIL /\ cr_column r = Some "".
Proof. apply unique_no_columns; reflexivity. Defined.

(* ------------------------------------------------------------------ *)
(** ** Further properties: runner *)

(** After a successful [save], the stored baseline for the table agrees with
    [stats] in [row_count] and schema (whether [save] wrote or not). *)
Lemma save_leaves_unchanged_baseline (st st1 : store) (stats : TableStats) (u : bool) :
  save st stats = Ok (u, st1) ->
  exists b, load st1 (ts_table_name stats) = Ok (Some b) /\ has_changed b stats = false.
Proof.
  intros Hs. destruct (load st (ts_table_name stats)) as [ob|e] eqn:Hl.
  2: { unfold save, mbind, res_mbind, res_bind in Hs. rewrite Hl in Hs. discriminate. }
  rewrite (save_unfold _ _ _ Hl) in Hs.
  assert (Hw : forall rc, has_changed (mkBaseline (ts_table_name stats) (ts_row_count stats)
                 (ts_schema stats) (ts_collected_at stats) rc) stats = false).
  { intros rc. apply not_true_is_false. rewrite has_changed_spec. simpl. tauto. }
  destruct ob as [b|].
  - destruct (has_changed b stats) eqn:Hc; simpl in Hs; injection Hs as <- <-.
    + rewrite load_written. eauto.
    + eauto.
  - injection Hs as <- <-. rewrite load_written. eauto.
Qed.

Section runner_props.
Context `{!Fmt}.

Lemma run_effect (stats : TableStats) (config : TableConfig) (w w' : World) (rr : RunResult) :
  run stats config w = Ok (rr, w') ->
  save (w_store w) stats = Ok (rr_baseline_updated rr, w_store w') /\ rr_error rr = None.
Proof.
  unfold run, m_bind, store_load. cbn [mbind res_mbind res_bind].
  destruct (load (w_store w) (ts_table_name stats)) as [ob|e]; [|discriminate].
  cbn [w_store w_calls]. unfold store_save. cbn [w_store w_calls mbind res_mbind res_bind].
  destruct (save (w_store w) stats) as [[u st']|e]; [|discriminate].
  unfold m_ret. intros [= <- <-]. auto.
Qed.

Lemma run_ok (w : World) (stats : TableStats) (config : TableConfig) (ob : option Baseline) :
  load (w_store w) (ts_table_name stats) = Ok ob ->
  exists rr w', run stats config w = Ok (rr, w').
Proof.
  intros Hl. destruct (save_ok _ _ _ Hl) as (u & st' & Hs).
  unfold run, m_bind, store_load. cbn [mbind res_mbind res_bind]. rewrite Hl.
  cbn [w_store w_calls]. unfold store_save. cbn [w_store w_calls mbind res_mbind res_bind].
  rewrite Hs. unfold m_ret. eauto.
Qed.


(** Running a table a second time with the same name, [row_count] and schema
    (for instance a later collection of an unchanged table, under any
    configuration) reports [baseline_updated = False] and leaves the baseline
    directory as the first run left it. *)
Theorem run_twice_keeps_baseline (w w1 : World) (stats stats2 : TableStats)
    (config config2 : TableConfig) (rr1 : RunResult) :
  run stats config w = Ok (rr1, w1) ->
  ts_table_name stats2 = ts_table_name stats ->
  ts_row_count stats2 = ts_row_count stats ->
  ts_schema stats2 = ts_schema stats ->
  exists rr2 w2, run stats2 config2 w1 = Ok (rr2, w2) /\
    rr_baseline_updated rr2 = false /\ w_store w2 = w_store w1.
Proof.
  intros H1 Hn Hr Hsc. destruct (run_effect _ _ _ _ _ H1) as [Hs _].
  destruct (save_leaves_unchanged_baseline _ _ _ _ Hs) as (b & Hl & Hc).
  assert (Hl2 : load (w_store w1) (ts_table_name stats2) = Ok (Some b)) by (rewrite Hn; exact Hl).
  assert (Hc2 : has_changed b stats2 = false) by (unfold has_changed in *; rewrite Hr, Hsc; exact Hc).
  destruct (run_ok w1 stats2 config2 _ Hl2) as (rr2 & w2 & Hr2).
  exists rr2, w2. split; [exact Hr2|].
  destruct (run_effect _ _ _ _ _ Hr2) as [Hs2 _].
  rewrite (save_unfold _ _ _ Hl2), Hc2 in Hs2. simpl in Hs2. injection Hs2. auto.
Qed.

End runner_props.

Definition orders_abc_later : TableStats :=
  mkTableStats "orders" STAGING 1000 (ts_columns (orders_abc 1000)) (ts_schema (orders_abc 1000))
    "2026-02-19T10:00:00+00:00".

Lemma run_twice_keeps_baseline_witness :
  exists rr1 w1, run (orders_abc 1000) orders_config (mkWorld ∅ []) = Ok (rr1, w1) /\
  exists rr2 w2, run orders_abc_later orders_config w1 = Ok (rr2, w2) /\
    rr_baseline_updated rr2 = false /\ w_store w2 = w_store w1.
Proof.
  assert (Hl : load (w_store (mkWorld ∅ [])) (ts_table_name (orders_abc 1000)) = Ok None)
    by reflexivity.
  destruct (run_ok (mkWorld ∅ []) (orders_abc 1000) orders_config None Hl)
    as (rr1 & w1 & H1).
  exists rr1, w1. split; [exact H1|].
  apply (run_twice_keeps_baseline (mkWorld ∅ []) w1 (orders_abc 1000) orders_abc_later
           orders_config orders_config rr1 H1); reflexivity.
Defined.

(* ------------------------------------------------------------------ *)
(** ** Further properties: RunResult and RunSummary *)

Lemma filter_status_partition (l : list CheckResult) :
  (length (filter (fun r => status_eqb (cr_status r) PASS) l)
   + length (filter (fun r => status_eqb (cr_status r) WARN) l)
   + length (filter (fun r => status_eqb (cr_status r) FAIL) l))%nat = length l.
Proof.
  induction l as [|r l IH]; [reflexivity|]. rewrite !filter_cons. simpl.
  destruct (cr_status r); simpl; repeat case_decide; simpl in *; try contradiction; lia.
Qed.

Lemma sum_len_pos (f : RunResult -> list CheckResult) (l : list RunResult) :
  (0 <? sum_len f l)%nat = existsb (fun r => match f r with [] => false | _ => true end) l.
Proof.
  induction l as [|r l IH]; [reflexivity|]. simpl.
  destruct (f r) as [|x xs]; simpl; [exact IH | reflexivity].
Qed.

(** Every check result counts as exactly one of passed, warned and failed:
    [total_checks = total_passed + total_warnings + total_failures]. *)
Theorem total_checks_split (s : RunSummary) :
  total_checks s = (total_passed s + total_warnings s + total_failures s)%nat.
Proof.
  unfold total_checks, total_passed, total_warnings, total_failures.
  induction (rs_results s) as [|r l IH]; [reflexivity|]. simpl.
  assert (Hr : (length (rr_passed r) + length (rr_warnings r) + length (rr_failures r))%nat
               = length (rr_results r)) by apply filter_status_partition.
  lia.
Qed.


(** [RunSummary.exit_code]: 3 when some table's [error] is truthy, else 2
    when the summary [has_failures], else 1 when it [has_warnings], else 0. *)
Theorem exit_code_spec (s : RunSummary) :
  (exit_code s = 3 <-> existsb error_truthy (rs_results s) = true) /\
  (exit_code s = 2 <-> existsb error_truthy (rs_results s) = false /\
                       summary_has_failures s = true) /\
  (exit_code s = 1 <-> existsb error_truthy (rs_results s) = false /\
                       summary_has_failures s = false /\ summary_has_warnings s = true) /\
  (exit_code s = 0 <-> existsb error_truthy (rs_results s) = false /\
                       summary_has_failures s = false /\ summary_has_warnings s = false).
Proof.
  unfold summary_has_failures, summary_has_warnings, total_failures, total_warnings.
  rewrite !sum_len_pos. unfold exit_code, rr_has_failures, rr_has_warnings.
  destruct (existsb error_truthy _), (existsb _ (rs_results s)), (existsb _ (rs_results s));
    intuition discriminate.
Qed.

(** A table whose adapter raised with an empty message ([str(exc) == ""])
    is invisible to the exit code and the totals: its [error] is falsy and it
    has no checks, so the run can exit 0 ("all checks passed") although that
    table was never checked. *)
Theorem empty_error_ignored (l1 l2 : list RunResult) (config : TableConfig) (d : Q) :
  let s := mkRunSummary (l1 ++ run_table_error config "" :: l2) d in
  let s' := mkRunSummary (l1 ++ l2) d in
  exit_code s = exit_code s' /\ total_checks s = total_checks s' /\
  total_failures s = total_failures s' /\ total_warnings s = total_warnings s'.
Proof.
  unfold exit_code, total_checks, total_failures, total_warnings, sum_len; cbn [rs_results].
  rewrite !existsb_app, !fold_right_app. simpl. auto.
Qed.

Lemma empty_error_ignored_witness :
  exit_code (mkRunSummary [run_table_error orders_config ""] 1) = 0.
Proof.
  destruct (empty_error_ignored [] [] orders_config 1) as [He _].
  simpl in He. rewrite He. reflexivity.
Defined.

(* ------------------------------------------------------------------ *)
(** ** Further properties: gaya/config/loader.py *)

(** [_parse_table] configures a row-count check exactly when [min_rows] or
    [max_rows] is set to a non-zero value ([max_rows: 0] alone gives none),
    and then passes both bounds through unchanged. *)
Theorem parse_table_row_count (name : string) (cfg : TableYaml) (d : DefaultsYaml) :
  (tc_row_count (parse_table name cfg d) = None <->
     (ty_min_rows cfg = None \/ ty_min_rows cfg = Some 0) /\
     (ty_max_rows cfg = None \/ ty_max_rows cfg = Some 0)) /\
  (forall rc, tc_row_count (parse_table name cfg d) = Some rc ->
     rc_min_rows rc = ty_min_rows cfg /\ rc_max_rows rc = ty_max_rows cfg).
Proof.
  unfold parse_table. cbn [tc_row_count].
  destruct (ty_min_rows cfg) as [[|p|p]|], (ty_max_rows cfg) as [[|q|q]|]; cbn;
    (split; [intuition congruence | intros rc Hrc; try discriminate; injection Hrc as <-; auto]).
Qed.


(** Without a [defaults:] section the loader's thresholds are the same
    fractions as the defaults [Runner.run] falls back on ([NullConfig()]
    10 % / 25 %, [VolumeChangeConfig()] 20 % / 40 %). *)
Theorem parse_table_default_thresholds (name : string) (cfg : TableYaml) :
  let tc := parse_table name cfg (mkDefaultsYaml None None None None) in
  exists nc vc, tc_null tc = Some nc /\ tc_volume tc = Some vc /\
    (nc_warn_pct nc == nc_warn_pct default_null_config)%Q /\
    (nc_fail_pct nc == nc_fail_pct default_null_config)%Q /\
    nc_columns nc = nc_columns default_null_config /\
    (vc_warn_pct vc == vc_warn_pct default_volume_config)%Q /\
    (vc_fail_pct vc == vc_fail_pct default_volume_config)%Q.
Proof. cbn. do 2 eexists. split_and!; try reflexivity. Qed.


